(** * EduAI backend: assessment scoring, skill-gap aggregation and levels

    A shallow embedding of
    - [AssessmentAttempt.calculate_score] and [Question.get_correct_answer]
      (apps/assessments/models.py),
    - the feedback computation of [AttemptResultSerializer]
      (apps/assessments/serializers.py),
    - the skill-gap computation of [AssessmentViewSet.submit]
      (apps/assessments/views.py),
    - [UserGamification.calculate_level] (apps/gamification/models.py).

    Conventions of the embedding.
    - Python integers are unbounded: [Z]; a [PositiveIntegerField] is [N].
    - A Python [dict] keeps insertion order: an association list with
      in-place update and append for new keys.
    - Python exceptions are explicit: a computation returns [Val v] or
      [Raise e].
    - A Python [float] is represented by the rational number it denotes;
      [/], [*], [-], [sum] and [math.sqrt] are taken in exact arithmetic,
      that is before binary64 rounding.  [round(x, 2)] rounds to the
      nearest multiple of 1/100 and sends ties to the even neighbour, as
      CPython does on the exact value of its argument.  Module [Binary64]
      holds the same operations on the bit level; the concrete inputs
      that separate the code from a claim are evaluated there as well. *)

From Stdlib Require Import List String Ascii Bool.
From Stdlib Require Import ZArith NArith QArith Qround Qabs Lia Lqa.
From Stdlib Require Import DecimalString.
From Stdlib Require Import Floats.SpecFloat.
From Stdlib Require Import Permutation Sorted.
Import ListNotations.

Set Implicit Arguments.
Set Warnings "-register-all".

(* ------------------------------------------------------------------ *)
(** ** Exceptions *)

Inductive exn : Set :=
| IndexError
| ValueError
| TypeError
| OverflowError
| ZeroDivisionError.

Inductive py (A : Type) : Type :=
| Val (a : A)
| Raise (e : exn).

Arguments Val {A} a.
Arguments Raise {A} e.

Definition bind {A B : Type} (c : py A) (k : A -> py B) : py B :=
  match c with
  | Val a => k a
  | Raise e => Raise e
  end.

Notation "x <- c ;; k" := (bind c (fun x => k))
  (at level 61, c at next level, right associativity).

(** A [for] loop whose body may raise: the first exception ends the loop. *)
Fixpoint for_each {S A : Type} (body : S -> A -> py S) (l : list A) (s : S)
  : py S :=
  match l with
  | [] => Val s
  | a :: l' => s' <- body s a ;; for_each body l' s'
  end.

(** A comprehension whose element expression may raise. *)
Fixpoint map_py {A B : Type} (f : A -> py B) (l : list A) : py (list B) :=
  match l with
  | [] => Val []
  | a :: l' => b <- f a ;; bs <- map_py f l' ;; Val (b :: bs)
  end.

(* ------------------------------------------------------------------ *)
(** ** Insertion-ordered dictionaries with string keys *)

Module Dict.

Definition t (V : Type) : Type := list (string * V).

Definition empty {V : Type} : t V := [].

(** [d.get(k)] *)
Fixpoint get {V : Type} (d : t V) (k : string) : option V :=
  match d with
  | [] => None
  | (k', v) :: d' => if String.eqb k' k then Some v else get d' k
  end.

(** [d.get(k, default)] *)
Definition get_default {V : Type} (d : t V) (k : string) (default : V) : V :=
  match get d k with
  | Some v => v
  | None => default
  end.

(** [k in d] *)
Definition mem {V : Type} (d : t V) (k : string) : bool :=
  match get d k with
  | Some _ => true
  | None => false
  end.

(** [d[k] = v]: an existing key keeps its position, a new key goes last. *)
Fixpoint set {V : Type} (d : t V) (k : string) (v : V) : t V :=
  match d with
  | [] => [(k, v)]
  | (k', v') :: d' =>
      if String.eqb k' k then (k', v) :: d' else (k', v') :: set d' k v
  end.

Definition keys {V : Type} (d : t V) : list string := map fst d.

Definition items {V : Type} (d : t V) : list (string * V) := d.

End Dict.

(* ------------------------------------------------------------------ *)
(** ** JSON values and the builtin [int] *)

(** What [int] needs to know of a float: its value, or that it is a NaN
    or an infinity. *)
Inductive pyfloat : Set :=
| Finite (q : Q)
| NaN
| Infinity (negative : bool).

Inductive json : Set :=
| JNull
| JBool (b : bool)
| JInt (z : Z)
| JFloat (f : pyfloat)
| JStr (s : string)
| JArray (items : list json)
| JObject (members : list (string * json)).

Module PyInt.

Local Open Scope Z_scope.

(** [str.isspace] on the code points below 256. *)
Definition is_space (c : ascii) : bool :=
  let n := nat_of_ascii c in
  ((9 <=? n) && (n <=? 13) || (28 <=? n) && (n <=? 32)
   || (n =? 133) || (n =? 160))%nat.

Definition is_digit (c : ascii) : bool :=
  let n := nat_of_ascii c in ((48 <=? n) && (n <=? 57))%nat.

Definition digit_value (c : ascii) : Z := Z.of_nat (nat_of_ascii c) - 48.

Fixpoint lstrip (s : list ascii) : list ascii :=
  match s with
  | c :: s' => if is_space c then lstrip s' else s
  | [] => []
  end.

Definition strip (s : list ascii) : list ascii :=
  rev (lstrip (rev (lstrip s))).

(** Decimal digits, single underscores allowed between two digits. *)
Fixpoint digits (s : list ascii) (acc : Z) (after_digit : bool) : option Z :=
  match s with
  | [] => if after_digit then Some acc else None
  | c :: s' =>
      if is_digit c then digits s' (10 * acc + digit_value c) true
      else if (Ascii.eqb c "_"%char && after_digit)%bool
           then digits s' acc false
           else None
  end.

Definition signed (s : list ascii) : option Z :=
  match s with
  | c :: s' =>
      if Ascii.eqb c "-"%char then option_map Z.opp (digits s' 0 false)
      else if Ascii.eqb c "+"%char then digits s' 0 false
      else digits s 0 false
  | [] => None
  end.

(** [int(s)] for a string, base 10 (the interpreter's optional limit on
    the number of digits is not modelled). *)
Definition of_string (s : string) : py Z :=
  match signed (strip (list_ascii_of_string s)) with
  | Some z => Val z
  | None => Raise ValueError
  end.

(** [int(f)] for a float: truncation towards zero. *)
Definition of_float (f : pyfloat) : py Z :=
  match f with
  | Finite q => Val (Z.quot (Qnum q) (Zpos (Qden q)))
  | NaN => Raise ValueError
  | Infinity _ => Raise OverflowError
  end.

(** [int(v)] for a value decoded from JSON. *)
Definition int (v : json) : py Z :=
  match v with
  | JInt z => Val z
  | JBool b => Val (if b then 1 else 0)
  | JFloat f => of_float f
  | JStr s => of_string s
  | JNull | JArray _ | JObject _ => Raise TypeError
  end.

End PyInt.

(** [str(n)] for a non-negative integer. *)
Definition str (n : N) : string := NilEmpty.string_of_uint (N.to_uint n).

(** [l[i]] on a list: a negative index counts from the end. *)
Definition getitem {A : Type} (l : list A) (i : Z) : py A :=
  let len := Z.of_nat (List.length l) in
  let j := (if i <? 0 then i + len else i)%Z in
  if ((j <? 0) || (len <=? j))%Z then Raise IndexError
  else match nth_error l (Z.to_nat j) with
       | Some a => Val a
       | None => Raise IndexError
       end.

(* ------------------------------------------------------------------ *)
(** ** Numbers *)

Definition QN (n : N) : Q := inject_Z (Z.of_N n).

(** [a / b] on two non-negative integers. *)
Definition truediv (a b : N) : py Q :=
  if (b =? 0)%N then Raise ZeroDivisionError else Val (QN a / QN b)%Q.

(** Nearest integer, ties to the even one. *)
Definition round_half_even (q : Q) : Z :=
  let f := Qfloor q in
  match (q - inject_Z f ?= 1 # 2)%Q with
  | Lt => f
  | Gt => (f + 1)%Z
  | Eq => if Z.even f then f else (f + 1)%Z
  end.

(** [round(x, 2)] *)
Definition round2 (x : Q) : Q := (inject_Z (round_half_even (x * 100)) / 100)%Q.



(* ------------------------------------------------------------------ *)
(** ** apps/assessments/models.py *)

Module Question.

(** An entry of [Question.options]: [{text: string, isCorrect: boolean}]. *)
Record option_t : Set := { text : string; isCorrect : bool }.

Record t : Set := {
  id : N;
  options : list option_t;
  skill_category : option string;
  points : N
}.

Fixpoint first_correct (opts : list option_t) : option option_t :=
  match opts with
  | [] => None
  | o :: opts' => if isCorrect o then Some o else first_correct opts'
  end.

(** [Question.get_correct_answer] *)
Definition get_correct_answer (self : t) : option string :=
  option_map text (first_correct (options self)).

End Question.

Module Assessment.

Record t : Set := {
  passing_score : N;
  questions : list Question.t
}.

End Assessment.

Module AssessmentAttempt.

Record t : Type := {
  assessment : Assessment.t;
  answers : Dict.t json;
  score : Q;
  passed : bool;
  skill_scores : Dict.t Q
}.

(** The accumulators of the scoring loop. *)
Record acc : Type := {
  earned_points : N;
  skill_correct : Dict.t N;
  skill_total : Dict.t N
}.

Definition acc0 : acc :=
  {| earned_points := 0%N; skill_correct := Dict.empty; skill_total := Dict.empty |}.

(** [question.skill_category or 'General'] *)
Definition skill_of (question : Question.t) : string :=
  match Question.skill_category question with
  | Some s => if String.eqb s "" then "General"%string else s
  | None => "General"%string
  end.

(** [question.options[int(answer)]] *)
Definition selected_option (question : Question.t) (answer : json)
  : py Question.option_t :=
  i <- PyInt.int answer ;; getitem (Question.options question) i.

(** The body of [for question in questions]. *)
Definition score_question (answers : Dict.t json) (a : acc)
  (question : Question.t) : py acc :=
  let skill := skill_of question in
  let a1 :=
    {| earned_points := earned_points a;
       skill_correct := skill_correct a;
       skill_total :=
         Dict.set (skill_total a) skill
           (Dict.get_default (skill_total a) skill 0 + Question.points question)%N |} in
  let award :=
    {| earned_points := (earned_points a1 + Question.points question)%N;
       skill_correct :=
         Dict.set (skill_correct a1) skill
           (Dict.get_default (skill_correct a1) skill 0 + Question.points question)%N;
       skill_total := skill_total a1 |} in
  match Dict.get answers (str (Question.id question)) with
  | None | Some JNull => Val a1
  | Some answer =>
      match selected_option question answer with
      | Val o => Val (if Question.isCorrect o then award else a1)
      | Raise IndexError | Raise ValueError => Val a1
      | Raise e => Raise e
      end
  end.

(** [sum(q.points for q in questions)] *)
Definition total_points (questions : list Question.t) : N :=
  fold_left N.add (map Question.points questions) 0%N.

(** [(earned_points / total_points * 100) if total_points > 0 else 0] *)
Definition overall (earned total : N) : py Q :=
  if (0 <? total)%N then x <- truediv earned total ;; Val (x * 100)%Q else Val 0%Q.

(** [round((correct / total * 100), 2) if total > 0 else 0] *)
Definition skill_score (correct total : N) : py Q :=
  if (0 <? total)%N then x <- truediv correct total ;; Val (round2 (x * 100)%Q)
  else Val 0%Q.

(** The body of [for skill, total in skill_total.items()]. *)
Definition store_skill (correct : Dict.t N) (scores : Dict.t Q)
  (item : string * N) : py (Dict.t Q) :=
  let (skill, total) := item in
  v <- skill_score (Dict.get_default correct skill 0%N) total ;;
  Val (Dict.set scores skill v).

(** [AssessmentAttempt.calculate_score]: the attempt after the call and
    the value returned, [self.score]. *)
Definition calculate_score (self : t) : py (t * Q) :=
  let questions := Assessment.questions (assessment self) in
  let total := total_points questions in
  a <- for_each (score_question (answers self)) questions acc0 ;;
  s <- overall (earned_points a) total ;;
  let p := Qle_bool (QN (Assessment.passing_score (assessment self))) s in
  sk <- for_each (store_skill (skill_correct a))
          (Dict.items (skill_total a)) (skill_scores self) ;;
  Val ({| assessment := assessment self;
          answers := answers self;
          score := s;
          passed := p;
          skill_scores := sk |}, s).

End AssessmentAttempt.

(* ------------------------------------------------------------------ *)
(** ** apps/assessments/serializers.py *)

Module AttemptResultSerializer.

(** [for idx, option in enumerate(question.options)] up to the [break]. *)
Fixpoint first_correct_index (opts : list Question.option_t) (idx : nat)
  : option nat :=
  match opts with
  | [] => None
  | o :: opts' =>
      if Question.isCorrect o then Some idx
      else first_correct_index opts' (S idx)
  end.

Record feedback : Set := {
  selected_answer : option json;
  correct_answer : option nat;
  is_correct : bool
}.

(** One entry of [get_questions_feedback]; [int(answer)] is not guarded
    here, its exception leaves the method. *)
Definition question_feedback (answers : Dict.t json) (question : Question.t)
  : py feedback :=
  let answer := Dict.get answers (str (Question.id question)) in
  let correct_idx := first_correct_index (Question.options question) 0 in
  selected_correct <-
    match correct_idx, answer with
    | Some idx, Some JNull => Val false
    | Some idx, Some a => i <- PyInt.int a ;; Val (i =? Z.of_nat idx)%Z
    | _, _ => Val false
    end ;;
  Val {| selected_answer := answer;
         correct_answer := correct_idx;
         is_correct := selected_correct |}.

(** [AttemptResultSerializer.get_questions_feedback] *)
Definition get_questions_feedback (answers : Dict.t json)
  (questions : list Question.t) : py (list feedback) :=
  map_py (question_feedback answers) questions.

End AttemptResultSerializer.

(* ------------------------------------------------------------------ *)
(** ** apps/assessments/views.py *)

(** [sum(xs)] on floats *)
Definition sum_Q (xs : list Q) : Q := fold_left Qplus xs 0%Q.

Module PySorted.

(** [sorted(l, key=..., reverse=True)] on a list already paired with its
    keys: descending, and stable (equal keys keep their order). *)
Fixpoint insert {A : Type} (x : Q * A) (l : list (Q * A)) : list (Q * A) :=
  match l with
  | [] => [x]
  | y :: l' => if Qle_bool (fst y) (fst x) then x :: l else y :: insert x l'
  end.

Definition sort_reverse {A : Type} (l : list (Q * A)) : list (Q * A) :=
  fold_right insert [] l.

(** The order of the result: keys do not increase. *)
Definition desc {A : Type} (x y : Q * A) : Prop := (fst y <= fst x)%Q.

(** [sorted] evaluates every key before it compares any. *)
Definition sorted_reverse {A : Type} (key : A -> py Q) (l : list A)
  : py (list A) :=
  keyed <- map_py (fun x => k <- key x ;; Val (k, x)) l ;;
  Val (map snd (sort_reverse keyed)).

End PySorted.

Module AssessmentViewSet.

(** [sum(gaps) / len(gaps)] *)
Definition mean (gaps : list Q) : py Q :=
  match gaps with
  | [] => Raise ZeroDivisionError
  | _ => Val (sum_Q gaps / inject_Z (Z.of_nat (List.length gaps)))%Q
  end.

(** The body of [for skill, score in att.skill_scores.items()]. *)
Definition record_gap (skill_gaps : Dict.t (list Q)) (item : string * Q)
  : Dict.t (list Q) :=
  let (skill, score) := item in
  let skill_gaps1 :=
    if Dict.mem skill_gaps skill then skill_gaps
    else Dict.set skill_gaps skill [] in
  Dict.set skill_gaps1 skill
    (Dict.get_default skill_gaps1 skill [] ++ [(100 - score)%Q]).

(** [for att in attempts: for skill, score in att.skill_scores.items()] *)
Definition collect_gaps (attempts : list AssessmentAttempt.t)
  : Dict.t (list Q) :=
  fold_left
    (fun skill_gaps att =>
       fold_left record_gap
         (Dict.items (AssessmentAttempt.skill_scores att)) skill_gaps)
    attempts Dict.empty.

(** One entry of [top_skill_gaps]: [{skill, gapPercentage}]. *)
Definition gap_entry (item : string * list Q) : py (string * Q) :=
  let (skill, gaps) := item in
  m <- mean gaps ;; Val (skill, round2 m).

(** The value [submit] stores in [assessment.top_skill_gaps]. *)
Definition top_skill_gaps (attempts : list AssessmentAttempt.t)
  : py (list (string * Q)) :=
  ranked <- PySorted.sorted_reverse (fun x => mean (snd x))
              (Dict.items (collect_gaps attempts)) ;;
  map_py gap_entry (firstn 5 ranked).

End AssessmentViewSet.

(* ------------------------------------------------------------------ *)
(** ** apps/gamification/models.py *)

(** [int(math.sqrt(x))] for [x >= 0]: the integer part of the square
    root, see [int_sqrt_spec]. *)
Definition int_sqrt (x : Q) : Z := Z.sqrt (Qfloor x).

Module UserGamification.

Record t : Set := {
  total_xp : N;
  level : Z
}.

(** [max(1, int(math.sqrt(self.total_xp / 100)) + 1)] *)
Definition level_of (xp : N) : Z :=
  Z.max 1 (int_sqrt (QN xp / 100)%Q + 1).

(** [UserGamification.calculate_level] *)
Definition calculate_level (self : t) : t :=
  {| total_xp := total_xp self; level := level_of (total_xp self) |}.

End UserGamification.

(* ------------------------------------------------------------------ *)
(** ** Notions used to state the properties *)

Module Scoring.

Import AssessmentAttempt.

(** Sum of the points of a list of questions. *)
Fixpoint sum_points (qs : list Question.t) : N :=
  match qs with
  | [] => 0
  | q :: qs' => Question.points q + sum_points qs'
  end%N.

Definition has_skill (k : string) (q : Question.t) : bool :=
  String.eqb (skill_of q) k.

(** The value the loop reads for a question: [None] when the key is
    missing or holds [null]. *)
Definition submitted (answers : Dict.t json) (q : Question.t) : option json :=
  match Dict.get answers (str (Question.id q)) with
  | None | Some JNull => None
  | Some v => Some v
  end.

(** The question earns its points. *)
Definition answered_correctly (answers : Dict.t json) (q : Question.t) : bool :=
  match submitted answers q with
  | None => false
  | Some v =>
      match selected_option q v with
      | Val o => Question.isCorrect o
      | Raise _ => false
      end
  end.

(** The exception that leaves the loop at a question, if any. *)
Definition escaping (answers : Dict.t json) (q : Question.t) : option exn :=
  match submitted answers q with
  | None => None
  | Some v =>
      match selected_option q v with
      | Val _ | Raise IndexError | Raise ValueError => None
      | Raise e => Some e
      end
  end.

(** Values on which [int] returns or raises [ValueError]. *)
Definition convertible (v : json) : bool :=
  match v with
  | JNull | JBool _ | JInt _ | JStr _ => true
  | JFloat (Finite _) | JFloat NaN => true
  | JFloat (Infinity _) | JArray _ | JObject _ => false
  end.

(** Every answer the loop looks up is [convertible]. *)
Definition convertible_answers (self : t) : bool :=
  forallb
    (fun q => match Dict.get (answers self) (str (Question.id q)) with
              | Some v => convertible v
              | None => true
              end)
    (Assessment.questions (assessment self)).

(** The accumulators after a question that earns nothing. *)
Definition miss (a : acc) (q : Question.t) : acc :=
  {| earned_points := earned_points a;
     skill_correct := skill_correct a;
     skill_total :=
       Dict.set (skill_total a) (skill_of q)
         (Dict.get_default (skill_total a) (skill_of q) 0 + Question.points q)%N |}.

(** The accumulators after a question that earns its points. *)
Definition hit (a : acc) (q : Question.t) : acc :=
  {| earned_points := (earned_points a + Question.points q)%N;
     skill_correct :=
       Dict.set (skill_correct a) (skill_of q)
         (Dict.get_default (skill_correct a) (skill_of q) 0 + Question.points q)%N;
     skill_total := skill_total (miss a q) |}.

(** Points earned, and points at stake, over a question list. *)
Definition earned (answers : Dict.t json) (qs : list Question.t) : N :=
  sum_points (filter (answered_correctly answers) qs).

Definition skill_earned (answers : Dict.t json) (qs : list Question.t)
  (k : string) : N :=
  sum_points (filter (fun q => has_skill k q && answered_correctly answers q) qs).

Definition skill_points (qs : list Question.t) (k : string) : N :=
  sum_points (filter (has_skill k) qs).

(** The percentage [c / t * 100] as a number, [0] when [t = 0]. *)
Definition percentage (c t : N) : Q :=
  if (0 <? t)%N then (QN c / QN t * 100)%Q else 0%Q.

(** One turn of the scoring loop when nothing is raised. *)
Definition step (answers : Dict.t json) (a : acc) (q : Question.t) : acc :=
  if answered_correctly answers q then hit a q else miss a q.

Definition final_acc (self : t) : acc :=
  fold_left (step (answers self)) (Assessment.questions (assessment self)) acc0.

(** One turn of the loop over [skill_total.items()]. *)
Definition store (correct : Dict.t N) (scores : Dict.t Q) (item : string * N)
  : Dict.t Q :=
  Dict.set scores (fst item)
    (if (0 <? snd item)%N
     then round2 (QN (Dict.get_default correct (fst item) 0%N) / QN (snd item) * 100)%Q
     else 0%Q).

(** The attempt after a call of [calculate_score] that returns. *)
Definition scored (self : t) : t :=
  let a := final_acc self in
  let s := percentage (earned_points a)
             (total_points (Assessment.questions (assessment self))) in
  {| assessment := assessment self;
     answers := answers self;
     score := s;
     passed := Qle_bool (QN (Assessment.passing_score (assessment self))) s;
     skill_scores :=
       fold_left (store (skill_correct a)) (Dict.items (skill_total a))
         (skill_scores self) |}.

End Scoring.

(** The submitted value is the index of the first option flagged
    correct: the correct answer of [get_correct_answer] and of the
    feedback. *)
Definition selects_correct (answers : Dict.t json) (q : Question.t) : bool :=
  match Scoring.submitted answers q,
        AttemptResultSerializer.first_correct_index (Question.options q) 0 with
  | Some v, Some idx =>
      match PyInt.int v with
      | Val i => (i =? Z.of_nat idx)%Z
      | Raise _ => false
      end
  | _, _ => false
  end.

(** The question leaves the accumulators as an incorrect answer does:
    its points go to the total of its skill and nowhere else. *)
Definition counts_as_incorrect (answers : Dict.t json) (q : Question.t) : Prop :=
  forall a : AssessmentAttempt.acc,
  exists a' : AssessmentAttempt.acc,
    AssessmentAttempt.score_question answers a q = Val a' /\
    AssessmentAttempt.earned_points a' = AssessmentAttempt.earned_points a /\
    AssessmentAttempt.skill_correct a' = AssessmentAttempt.skill_correct a /\
    AssessmentAttempt.skill_total a' =
      Dict.set (AssessmentAttempt.skill_total a) (AssessmentAttempt.skill_of q)
        (Dict.get_default (AssessmentAttempt.skill_total a)
           (AssessmentAttempt.skill_of q) 0 + Question.points q)%N.

(** The submitted value does not designate an option: nothing submitted,
    not an integer, or an index outside the options. *)
Definition anomalous (answers : Dict.t json) (q : Question.t) : Prop :=
  Scoring.submitted answers q = None \/
  exists v, Scoring.submitted answers q = Some v /\
    (PyInt.int v = Raise ValueError \/
     exists i, PyInt.int v = Val i /\
       (i < - Z.of_nat (List.length (Question.options q)) \/
        Z.of_nat (List.length (Question.options q)) <= i)%Z).

(** Notions for the skill gaps of an assessment. *)
Module Gaps.

(** Every [(skill, score)] pair, in the order the two loops meet them. *)
Definition reported (attempts : list AssessmentAttempt.t) : list (string * Q) :=
  flat_map (fun att => Dict.items (AssessmentAttempt.skill_scores att)) attempts.

(** The distinct labels of a list, in the order of their first occurrence. *)
Fixpoint first_seen (ks : list string) : list string :=
  match ks with
  | [] => []
  | k :: ks' => k :: filter (fun k' => negb (String.eqb k k')) (first_seen ks')
  end.

(** The skills some attempt reports, in the order they are first met. *)
Definition observed_skills (attempts : list AssessmentAttempt.t) : list string :=
  first_seen (map fst (reported attempts)).

(** The gaps [100 - score] reported for a skill, in order. *)
Definition gaps_in (items : list (string * Q)) (k : string) : list Q :=
  map (fun it => (100 - snd it)%Q)
    (filter (fun it => String.eqb k (fst it)) items).

Definition gaps (attempts : list AssessmentAttempt.t) (k : string) : list Q :=
  gaps_in (reported attempts) k.

(** The arithmetic mean of a list of numbers. *)
Definition mean_value (xs : list Q) : Q :=
  (sum_Q xs / inject_Z (Z.of_nat (List.length xs)))%Q.

Definition mean_gap (attempts : list AssessmentAttempt.t) (k : string) : Q :=
  mean_value (gaps attempts k).

(** [a] may stand before [b] in a ranking by descending mean gap. *)
Definition not_below (attempts : list AssessmentAttempt.t) (a b : string) : Prop :=
  (mean_gap attempts b <= mean_gap attempts a)%Q.

(** The skills of a list whose mean gap is [m], in the order of the list. *)
Definition tied (attempts : list AssessmentAttempt.t) (m : Q) (ks : list string)
  : list string :=
  filter (fun k => Qeq_bool (mean_gap attempts k) m) ks.

End Gaps.

(** ** IEEE 754 binary64, to cross-check the exact arithmetic

    The operations Python performs on floats, on the bit level; [of_N] is
    exact below 2^53, where [truediv] is Python's [a / b] on integers. *)
Module Binary64.

Definition prec : Z := 53.
Definition emax : Z := 1024.

Definition of_N (n : N) : spec_float :=
  binary_normalize prec emax (Z.of_N n) 0 false.

Definition truediv (a b : N) : spec_float :=
  SFdiv prec emax (of_N a) (of_N b).

Definition mul (x y : spec_float) : spec_float := SFmul prec emax x y.

Definition sqrt (x : spec_float) : spec_float := SFsqrt prec emax x.

(** The rational number a finite float denotes. *)
Definition value (x : spec_float) : option Q :=
  match x with
  | S754_zero _ => Some 0%Q
  | S754_finite s m e =>
      let v := match e with
               | Zneg p => (Zpos m # 2 ^ p)%Q
               | _ => inject_Z (Zpos m * 2 ^ e)
               end in
      Some (if s then Qopp v else v)
  | _ => None
  end.

(** [int(x)] *)
Definition int (x : spec_float) : option Z :=
  option_map (fun q => Z.quot (Qnum q) (Zpos (Qden q))) (value x).

(** [earned_points / total_points * 100] *)
Definition percentage (c t : N) : spec_float := mul (truediv c t) (of_N 100).

(** [max(1, int(math.sqrt(total_xp / 100)) + 1)] *)
Definition level_of (xp : N) : option Z :=
  option_map (fun n => Z.max 1 (n + 1)) (int (sqrt (truediv xp 100))).

(** The level at both sides of the threshold of level [k + 1]. *)
Definition agrees_at (k : N) : bool :=
  match level_of (100 * k * k), level_of (100 * k * k - 1) with
  | Some above, Some below =>
      ((above =? UserGamification.level_of (100 * k * k))%Z
       && (below =? UserGamification.level_of (100 * k * k - 1))%Z)%bool
  | _, _ => false
  end.

End Binary64.

(* ------------------------------------------------------------------ *)
(** ** apps/gamification/models.py, the whole of [UserGamification] *)

(** [round(x, 1)] *)
Definition round1 (x : Q) : Q := (inject_Z (round_half_even (x * 10)) / 10)%Q.

(** [min(a, b)] on numbers *)
Definition py_min (a b : Q) : Q := if Qle_bool a b then a else b.

Module Gamification.

(** [UserGamification.RANKS] *)
Definition RANKS : list (N * string) :=
  [(0, "Novice"); (100, "Beginner"); (500, "Learner"); (1000, "Student");
   (2500, "Scholar"); (5000, "Expert"); (10000, "Master");
   (25000, "Grandmaster"); (50000, "Legend")]%N%string.

(** The fields of [UserGamification] its methods read and write; a date
    is the number of its day. *)
Record t : Set := {
  total_xp : N;
  level : Z;
  rank : string;
  current_streak : N;
  longest_streak : N;
  last_activity_date : option Z
}.

(** [UserGamification.calculate_level] *)
Definition calculate_level (self : t) : t :=
  {| total_xp := total_xp self;
     level := UserGamification.level_of (total_xp self);
     rank := rank self;
     current_streak := current_streak self;
     longest_streak := longest_streak self;
     last_activity_date := last_activity_date self |}.

(** The loop of [calculate_rank] over a table: the first entry whose
    threshold [total_xp] reaches ends it. *)
Fixpoint first_reached (table : list (N * string)) (xp : N) : option string :=
  match table with
  | [] => None
  | (threshold, rank_name) :: rest =>
      if (threshold <=? xp)%N then Some rank_name else first_reached rest xp
  end.

(** [UserGamification.calculate_rank] *)
Definition calculate_rank (self : t) : t :=
  match first_reached (rev RANKS) (total_xp self) with
  | Some rank_name =>
      {| total_xp := total_xp self;
         level := level self;
         rank := rank_name;
         current_streak := current_streak self;
         longest_streak := longest_streak self;
         last_activity_date := last_activity_date self |}
  | None => self
  end.

(** [UserGamification.add_xp]: the record after the call and the value
    returned.  Every caller passes a non-negative amount. *)
Definition add_xp (self : t) (amount : N) : t * N :=
  let self1 :=
    {| total_xp := total_xp self + amount;
       level := level self;
       rank := rank self;
       current_streak := current_streak self;
       longest_streak := longest_streak self;
       last_activity_date := last_activity_date self |} in
  let self2 := calculate_rank (calculate_level self1) in
  (self2, total_xp self2).

(** [UserGamification.update_streak], [today] being
    [timezone.now().date()]. *)
Definition update_streak (today : Z) (self : t) : t * N :=
  let streak :=
    match last_activity_date self with
    | None => 1%N
    | Some d =>
        if (d =? today)%Z then current_streak self
        else if (d =? today - 1)%Z then (current_streak self + 1)%N
        else 1%N
    end in
  ({| total_xp := total_xp self;
      level := level self;
      rank := rank self;
      current_streak := streak;
      longest_streak := N.max (longest_streak self) streak;
      last_activity_date := Some today |}, streak).


(** [UserGamificationSerializer.get_level_progress]
    (apps/gamification/serializers.py) *)
Definition get_level_progress (obj : t) : py Q :=
  let current_level_xp := ((level obj - 1) ^ 2 * 100)%Z in
  let next_level_xp := (level obj ^ 2 * 100)%Z in
  let level_xp_range := (next_level_xp - current_level_xp)%Z in
  let current_progress := (Z.of_N (total_xp obj) - current_level_xp)%Z in
  if (0 <? level_xp_range)%Z
  then (if (level_xp_range =? 0)%Z then Raise ZeroDivisionError
        else Val (py_min 100
                    (round1 (inject_Z current_progress
                             / inject_Z level_xp_range * 100))))%Q
  else Val 100%Q.

(** [level] and [rank] are the ones [total_xp] gives. *)
Definition consistent (self : t) : Prop :=
  level self = UserGamification.level_of (total_xp self) /\
  first_reached (rev RANKS) (total_xp self) = Some (rank self).

(** The threshold of a rank name in [RANKS]. *)
Fixpoint threshold_of (table : list (N * string)) (name : string) : option N :=
  match table with
  | [] => None
  | (threshold, rank_name) :: rest =>
      if String.eqb rank_name name then Some threshold
      else threshold_of rest name
  end.

(** Once a day is recorded the streak counts at least that day and the
    longest streak is at least the current one. *)
Definition streak_ok (self : t) : Prop :=
  match last_activity_date self with
  | None => True
  | Some _ => (1 <= current_streak self <= longest_streak self)%N
  end.

(** [update_streak] on each day of a list, in turn. *)
Definition active_on (days : list Z) (self : t) : t :=
  fold_left (fun s day => fst (update_streak day s)) days self.

(** The days [first], [first + 1], ..., [n] of them. *)
Fixpoint consecutive (first : Z) (n : nat) : list Z :=
  match n with
  | O => []
  | S n' => first :: consecutive (first + 1) n'
  end.

End Gamification.

Module Achievement.

(** The fields of [Achievement] the code reads. *)
Record t : Set := {
  id : N;
  type : string;
  requirement : N;
  xp_reward : N;
  is_active : bool
}.

End Achievement.

Module UserAchievement.

(** A row of [UserAchievement] with its related [achievement]; a time is
    a number. *)
Record t : Set := {
  achievement : Achievement.t;
  progress : N;
  unlocked : bool;
  unlocked_at : option Z
}.

(** [UserAchievement.update_progress]: the row, its [user_gamification]
    and the value returned; [now] is [timezone.now()]. *)
Definition update_progress (now : Z) (self : t)
  (user_gamification : Gamification.t) (increment : N)
  : t * Gamification.t * bool :=
  if unlocked self then (self, user_gamification, false)
  else
    let progress1 := (progress self + increment)%N in
    if (Achievement.requirement (achievement self) <=? progress1)%N
    then ({| achievement := achievement self;
             progress := progress1;
             unlocked := true;
             unlocked_at := Some now |},
          fst (Gamification.add_xp user_gamification
                 (Achievement.xp_reward (achievement self))),
          true)
    else ({| achievement := achievement self;
             progress := progress1;
             unlocked := false;
             unlocked_at := unlocked_at self |},
          user_gamification, false).

(** [update_progress] with each increment of a list, in turn. *)
Definition update_all (now : Z) (increments : list N)
  (state : t * Gamification.t) : t * Gamification.t :=
  fold_left
    (fun st inc => fst (update_progress now (fst st) (snd st) inc))
    increments state.

(** [UserAchievementSerializer.get_progress_percentage]
    (apps/gamification/serializers.py) *)
Definition get_progress_percentage (obj : t) : py Q :=
  if (0 <? Achievement.requirement (achievement obj))%N
  then x <- truediv (progress obj) (Achievement.requirement (achievement obj)) ;;
       Val (py_min 100 (round1 (x * 100)%Q))
  else Val 0%Q.

End UserAchievement.

(* ------------------------------------------------------------------ *)
(** ** apps/gamification/views.py *)

(** The [UserAchievement] rows of one user. *)
Module Rows.

Definition t : Type := list UserAchievement.t.

Definition is_for (achievement_id : N) (row : UserAchievement.t) : bool :=
  (Achievement.id (UserAchievement.achievement row) =? achievement_id)%N.

(** [UserAchievement.objects.get_or_create(user_gamification=...,
    achievement=achievement)]: the row and the table after the call. *)
Definition get_or_create (rows : t) (achievement : Achievement.t)
  : UserAchievement.t * t :=
  match find (is_for (Achievement.id achievement)) rows with
  | Some row => (row, rows)
  | None =>
      let row := {| UserAchievement.achievement := achievement;
                    UserAchievement.progress := 0;
                    UserAchievement.unlocked := false;
                    UserAchievement.unlocked_at := None |} in
      (row, rows ++ [row])
  end.

(** [row.save()] for a row read from the table. *)
Fixpoint save (row : UserAchievement.t) (rows : t) : t :=
  match rows with
  | [] => []
  | r :: rows' =>
      if is_for (Achievement.id (UserAchievement.achievement row)) r
      then row :: rows'
      else r :: save row rows'
  end.

End Rows.

Module UpdateStreakView.

(** The bonus of [post] for a streak that went from [old_streak] to
    [new_streak]. *)
Definition streak_bonus (old_streak new_streak : N) : N :=
  if (old_streak <? new_streak)%N
  then if (30 <=? new_streak)%N then 50
       else if (14 <=? new_streak)%N then 25
       else if (7 <=? new_streak)%N then 15
       else if (3 <=? new_streak)%N then 10
       else 5
  else 0.

(** The body of the loop of [_check_streak_achievements]. *)
Definition check_one (now : Z) (streak : N) (state : Rows.t * Gamification.t)
  (achievement : Achievement.t) : Rows.t * Gamification.t :=
  let (rows, gamification) := state in
  let (user_ach, rows1) := Rows.get_or_create rows achievement in
  if (negb (UserAchievement.unlocked user_ach)
      && (Achievement.requirement achievement <=? streak)%N)%bool
  then (Rows.save
          {| UserAchievement.achievement := UserAchievement.achievement user_ach;
             UserAchievement.progress := streak;
             UserAchievement.unlocked := true;
             UserAchievement.unlocked_at := Some now |} rows1,
        fst (Gamification.add_xp gamification
               (Achievement.xp_reward achievement)))
  else (rows1, gamification).

(** [Achievement.objects.filter(type='STREAK', is_active=True)] *)
Definition streak_achievements (achievements : list Achievement.t)
  : list Achievement.t :=
  filter (fun a => (String.eqb (Achievement.type a) "STREAK"
                    && Achievement.is_active a)%bool) achievements.

(** [UpdateStreakView._check_streak_achievements] *)
Definition _check_streak_achievements (now : Z)
  (achievements : list Achievement.t) (state : Rows.t * Gamification.t)
  (streak : N) : Rows.t * Gamification.t :=
  fold_left (check_one now streak) (streak_achievements achievements) state.

(** Nothing is left to do for an achievement: its row is unlocked, or
    the streak does not reach its requirement. *)
Definition settled (streak : N) (rows : Rows.t) (a : Achievement.t) : Prop :=
  exists row,
    find (Rows.is_for (Achievement.id a)) rows = Some row /\
    (UserAchievement.unlocked row = true \/
     (streak < Achievement.requirement a)%N).

Record response : Set := {
  current_streak : N;
  longest_streak : N;
  streak_bonus_xp : N
}.

(** [UpdateStreakView.post] on the user's record and rows. *)
Definition post (today now : Z) (achievements : list Achievement.t)
  (state : Rows.t * Gamification.t) : Rows.t * Gamification.t * response :=
  let (rows, gamification) := state in
  let old_streak := Gamification.current_streak gamification in
  let (gamification1, new_streak) := Gamification.update_streak today gamification in
  let bonus := streak_bonus old_streak new_streak in
  let state1 :=
    if (old_streak <? new_streak)%N
    then _check_streak_achievements now achievements
           (rows, fst (Gamification.add_xp gamification1 bonus)) new_streak
    else (rows, gamification1) in
  (state1,
   {| current_streak := new_streak;
      longest_streak := Gamification.longest_streak (snd state1);
      streak_bonus_xp := bonus |}).

End UpdateStreakView.

Module UserAchievementsView.

(** [achievement_data] of an achievement in progress. *)
Record in_progress_data : Set := {
  achievement : Achievement.t;
  progress : N;
  progress_percentage : Q
}.

Record result : Set := {
  unlocked : list (Achievement.t * option Z);
  in_progress : list in_progress_data;
  locked : list Achievement.t
}.

(** [{ua.achievement_id: ua for ua in rows}.get(id)]: the last row of an
    id is the one the dictionary keeps. *)
Definition lookup (rows : Rows.t) (achievement_id : N) : option UserAchievement.t :=
  find (Rows.is_for achievement_id) (rev rows).

(** The body of [for achievement in all_achievements]. *)
Definition classify (rows : Rows.t) (r : result) (achievement : Achievement.t)
  : py result :=
  match lookup rows (Achievement.id achievement) with
  | Some user_ach =>
      if UserAchievement.unlocked user_ach
      then Val {| unlocked := unlocked r
                    ++ [(achievement, UserAchievement.unlocked_at user_ach)];
                  in_progress := in_progress r;
                  locked := locked r |}
      else if (0 <? UserAchievement.progress user_ach)%N
      then
        x <- truediv (UserAchievement.progress user_ach)
               (Achievement.requirement achievement) ;;
        Val {| unlocked := unlocked r;
               in_progress := in_progress r
                 ++ [{| achievement := achievement;
                        progress := UserAchievement.progress user_ach;
                        progress_percentage := py_min 100 (round1 (x * 100)%Q) |}];
               locked := locked r |}
      else Val {| unlocked := unlocked r;
                  in_progress := in_progress r;
                  locked := locked r ++ [achievement] |}
  | None => Val {| unlocked := unlocked r;
                   in_progress := in_progress r;
                   locked := locked r ++ [achievement] |}
  end.

(** [UserAchievementsView.get] *)
Definition get (achievements : list Achievement.t) (rows : Rows.t) : py result :=
  for_each (classify rows) (filter Achievement.is_active achievements)
    {| unlocked := []; in_progress := []; locked := [] |}.

(** The three cases of [classify]. *)
Definition is_unlocked (rows : Rows.t) (a : Achievement.t) : bool :=
  match lookup rows (Achievement.id a) with
  | Some user_ach => UserAchievement.unlocked user_ach
  | None => false
  end.

Definition is_in_progress (rows : Rows.t) (a : Achievement.t) : bool :=
  match lookup rows (Achievement.id a) with
  | Some user_ach =>
      (negb (UserAchievement.unlocked user_ach)
       && (0 <? UserAchievement.progress user_ach)%N)%bool
  | None => false
  end.

Definition is_locked (rows : Rows.t) (a : Achievement.t) : bool :=
  (negb (is_unlocked rows a) && negb (is_in_progress rows a))%bool.

(** An achievement on which [get] divides by zero: in progress, with a
    requirement of 0. *)
Definition divides_by_zero (rows : Rows.t) (a : Achievement.t) : bool :=
  (is_in_progress rows a && (Achievement.requirement a =? 0)%N)%bool.

End UserAchievementsView.

(* ------------------------------------------------------------------ *)
(** ** apps/recommendations/views.py *)

Module CourseRecommendationsView.

(** An entry of [recommendations]; the course is kept by its id. *)
Record recommendation : Set := {
  course : N;
  reason : string;
  score : Q
}.

(** [for rec in sorted(...)] with its [break]: [seen_ids] and
    [unique_recommendations] as the loop has them. *)
Fixpoint dedupe (limit : Z) (recs : list recommendation) (seen_ids : list N)
  (unique : list recommendation) : list recommendation :=
  match recs with
  | [] => unique
  | r :: rest =>
      if existsb (N.eqb (course r)) seen_ids
      then dedupe limit rest seen_ids unique
      else
        let unique1 := unique ++ [r] in
        if (limit <=? Z.of_nat (List.length unique1))%Z then unique1
        else dedupe limit rest (course r :: seen_ids) unique1
  end.

(** [sorted(recommendations, key=lambda x: x['score'], reverse=True)] *)
Definition by_score (recommendations : list recommendation)
  : list recommendation :=
  map snd (PySorted.sort_reverse (map (fun r => (score r, r)) recommendations)).

(** "Deduplicate and sort by score" in [CourseRecommendationsView.get]. *)
Definition unique_recommendations (limit : Z)
  (recommendations : list recommendation) : list recommendation :=
  dedupe limit (by_score recommendations) [] [].

Definition other_course (c : N) (r : recommendation) : bool :=
  negb (course r =? c)%N.

(** [a] may stand before [b] in a list sorted by descending score. *)
Definition not_below (a b : recommendation) : Prop := (score b <= score a)%Q.

(** The first entry of each course, in the order of the list. *)
Fixpoint first_by_course (recs : list recommendation) : list recommendation :=
  match recs with
  | [] => []
  | r :: rest => r :: filter (other_course (course r)) (first_by_course rest)
  end.

End CourseRecommendationsView.

(* ------------------------------------------------------------------ *)
(** ** The scoring step of [AssessmentViewSet.submit] *)

Module SubmitAnswers.



(** [sum(d.values())] *)
Definition sum_values (d : Dict.t N) : N := fold_right N.add 0%N (map snd d).

(** The number of options flagged correct. *)
Definition flagged (q : Question.t) : nat :=
  List.length (filter Question.isCorrect (Question.options q)).

End SubmitAnswers.

(** ** Concrete inputs *)

Module Examples.

Definition opt (s : string) (b : bool) : Question.option_t :=
  {| Question.text := s; Question.isCorrect := b |}.

Definition question (i pts : N) (skill : option string)
  (opts : list Question.option_t) : Question.t :=
  {| Question.id := i; Question.options := opts;
     Question.skill_category := skill; Question.points := pts |}.

(** An attempt as [start] creates it, with the answers [submit] stores. *)
Definition attempt (threshold : N) (qs : list Question.t) (ans : Dict.t json)
  : AssessmentAttempt.t :=
  {| AssessmentAttempt.assessment :=
       {| Assessment.passing_score := threshold; Assessment.questions := qs |};
     AssessmentAttempt.answers := ans;
     AssessmentAttempt.score := 0;
     AssessmentAttempt.passed := false;
     AssessmentAttempt.skill_scores := Dict.empty |}.

(** The example of the specification: Q1 and Q3 right, Q2 wrong. *)
Definition spec_example : AssessmentAttempt.t :=
  attempt 70
    [question 1 1 (Some "math"%string) [opt "a" true; opt "b" false];
     question 2 1 (Some "math"%string) [opt "a" false; opt "b" true];
     question 3 2 (Some "logic"%string) [opt "a" true; opt "b" false]]
    [("1"%string, JInt 0); ("2"%string, JInt 0); ("3"%string, JInt 0)].

(** Two options flagged correct, the second one selected. *)
Definition two_flagged_question : Question.t :=
  question 1 1 None [opt "A" true; opt "B" true].

Definition two_flagged : AssessmentAttempt.t :=
  attempt 70 [two_flagged_question] [("1"%string, JInt 1)].



(** An assessment without questions. *)
Definition no_questions : AssessmentAttempt.t :=
  attempt 70 [] [("1"%string, JInt 0)].

(** The last option is the flagged one, index [-1] is submitted. *)
Definition last_flagged_question : Question.t :=
  question 7 3 (Some "math"%string) [opt "A" false; opt "B" false; opt "C" true].

Definition minus_one : AssessmentAttempt.t :=
  attempt 70 [last_flagged_question] [("7"%string, JInt (-1))].

(** Missing, unparsable and out-of-range answers. *)
Definition anomalies : AssessmentAttempt.t :=
  attempt 70
    [question 1 1 None [opt "A" true; opt "B" false];
     question 2 1 None [opt "A" true; opt "B" false];
     question 3 1 None [opt "A" true; opt "B" false];
     question 4 1 None [opt "A" true; opt "B" false]]
    [("2"%string, JStr "first"); ("3"%string, JInt 2); ("4"%string, JInt 0)].

(** Every question answered with its first flagged option. *)
Definition all_correct : AssessmentAttempt.t :=
  attempt 100
    [question 1 1 (Some "math"%string) [opt "a" true; opt "b" false];
     question 2 3 None [opt "a" false; opt "b" true]]
    [("1"%string, JInt 0); ("2"%string, JStr "1")].


Definition with_skill_scores (sk : Dict.t Q) : AssessmentAttempt.t :=
  {| AssessmentAttempt.assessment :=
       {| Assessment.passing_score := 70; Assessment.questions := [] |};
     AssessmentAttempt.answers := Dict.empty;
     AssessmentAttempt.score := 0;
     AssessmentAttempt.passed := false;
     AssessmentAttempt.skill_scores := sk |}.

(** The two attempts of the specification's example. *)
Definition two_attempts : list AssessmentAttempt.t :=
  [with_skill_scores [("A"%string, 90%Q); ("B"%string, 40%Q)];
   with_skill_scores [("A"%string, 70%Q); ("B"%string, 20%Q)]].

(** Six skills, with ties. *)
Definition six_skills : list AssessmentAttempt.t :=
  [with_skill_scores [("A"%string, 50%Q); ("B"%string, 25%Q); ("C"%string, 50%Q)];
   with_skill_scores [("D"%string, 100%Q); ("E"%string, 50%Q); ("F"%string, 0%Q);
                      ("B"%string, 75%Q)]].

End Examples.

(** Inputs for the gamification and recommendation properties; the two
    achievements are rows of [seed_achievements]. *)
Module MoreExamples.

Definition week_warrior : Achievement.t :=
  {| Achievement.id := 6; Achievement.type := "STREAK";
     Achievement.requirement := 7; Achievement.xp_reward := 150;
     Achievement.is_active := true |}.

Definition dedicated_learner : Achievement.t :=
  {| Achievement.id := 2; Achievement.type := "COURSE_COMPLETION";
     Achievement.requirement := 5; Achievement.xp_reward := 500;
     Achievement.is_active := true |}.

(** An achievement whose requirement is 0, which [PositiveIntegerField]
    admits. *)
Definition free_pass : Achievement.t :=
  {| Achievement.id := 9; Achievement.type := "ENROLLMENT";
     Achievement.requirement := 0; Achievement.xp_reward := 10;
     Achievement.is_active := true |}.

Definition learner : Gamification.t :=
  {| Gamification.total_xp := 300; Gamification.level := 2;
     Gamification.rank := "Beginner";
     Gamification.current_streak := 6;
     Gamification.longest_streak := 9;
     Gamification.last_activity_date := Some 19%Z |}.

Definition row (a : Achievement.t) (progress : N) : UserAchievement.t :=
  {| UserAchievement.achievement := a;
     UserAchievement.progress := progress;
     UserAchievement.unlocked := false;
     UserAchievement.unlocked_at := None |}.

Definition rec (course : N) (reason : string) (score : Q) :
  CourseRecommendationsView.recommendation :=
  {| CourseRecommendationsView.course := course;
     CourseRecommendationsView.reason := reason;
     CourseRecommendationsView.score := score |}.

Definition recommendations : list CourseRecommendationsView.recommendation :=
  [rec 1 "skill gap" (1 # 2); rec 2 "popular" (9 # 10); rec 1 "similar" (4 # 5)].

End MoreExamples.

(* ================================================================== *)
(** * Properties *)

(** ** Exceptions and loops *)

Lemma bind_Val_inv {A B : Type} (c : py A) (k : A -> py B) (b : B) :
  bind c k = Val b -> exists a, c = Val a /\ k a = Val b.
Proof.
  destruct c as [a|e]; simpl; intros H; [eauto | discriminate].
Qed.

Lemma for_each_app {S A : Type} (body : S -> A -> py S) (l1 l2 : list A) (s : S) :
  for_each body (l1 ++ l2) s = (s' <- for_each body l1 s ;; for_each body l2 s').
Proof.
  revert s; induction l1 as [|a l1 IH]; intros s; simpl; [reflexivity|].
  destruct (body s a); simpl; auto.
Qed.

(** A loop whose body never raises is a left fold. *)
Lemma for_each_pure {S A : Type} (body : S -> A -> py S) (f : S -> A -> S)
  (l : list A) :
  (forall s a, In a l -> body s a = Val (f s a)) ->
  forall s, for_each body l s = Val (fold_left f l s).
Proof.
  induction l as [|a l IH]; intros Hb s; simpl; [reflexivity|].
  rewrite Hb by (left; reflexivity). simpl.
  apply IH. intros; apply Hb; right; assumption.
Qed.

(** ** Dictionaries *)

Module DictFacts.

Section Facts.

Context {V : Type}.
Implicit Types (d : Dict.t V) (k : string) (v : V).

Lemma get_set_same d k v : Dict.get (Dict.set d k v) k = Some v.
Proof.
  induction d as [|[k' v'] d IH]; simpl.
  - now rewrite String.eqb_refl.
  - destruct (String.eqb k' k) eqn:E; simpl; rewrite E; auto.
Qed.

Lemma get_set_other d k k' v :
  k <> k' -> Dict.get (Dict.set d k v) k' = Dict.get d k'.
Proof.
  intros Hne. induction d as [|[k0 v0] d IH]; simpl.
  - destruct (String.eqb_spec k k'); [contradiction | reflexivity].
  - destruct (String.eqb_spec k0 k) as [->|Hk]; simpl.
    + destruct (String.eqb_spec k k'); [contradiction | reflexivity].
    + now rewrite IH.
Qed.

Lemma get_None d k : Dict.get d k = None <-> ~ In k (Dict.keys d).
Proof.
  induction d as [|[k' v'] d IH]; simpl; [tauto|].
  destruct (String.eqb_spec k' k) as [->|Hk].
  - split; [discriminate | intros H; exfalso; apply H; now left].
  - rewrite IH. tauto.
Qed.

Lemma get_Some_In d k v : Dict.get d k = Some v -> In (k, v) d.
Proof.
  induction d as [|[k' v'] d IH]; simpl; [discriminate|].
  destruct (String.eqb_spec k' k) as [->|Hk].
  - intros [= ->]. now left.
  - intros H. right. auto.
Qed.

Lemma mem_In d k : Dict.mem d k = true <-> In k (Dict.keys d).
Proof.
  unfold Dict.mem. pose proof (get_None d k) as H.
  destruct (Dict.get d k).
  - split; [intros _ | reflexivity].
    destruct (in_dec string_dec k (Dict.keys d)) as [Hi|Hn]; [assumption|].
    apply H in Hn. discriminate.
  - split; [discriminate|]. intros Hi. exfalso. now apply (proj1 H).
Qed.

(** Updating a key keeps the order; a new key goes last. *)
Lemma keys_set d k v :
  Dict.keys (Dict.set d k v) =
  if Dict.mem d k then Dict.keys d else Dict.keys d ++ [k].
Proof.
  unfold Dict.mem. induction d as [|[k' v'] d IH]; simpl; [reflexivity|].
  destruct (String.eqb_spec k' k) as [->|Hk]; simpl; [reflexivity|].
  change (map fst (Dict.set d k v)) with (Dict.keys (Dict.set d k v)).
  rewrite IH. destruct (Dict.get d k); reflexivity.
Qed.

Lemma In_keys_set d k v k' :
  In k' (Dict.keys (Dict.set d k v)) <-> k' = k \/ In k' (Dict.keys d).
Proof.
  rewrite keys_set. destruct (Dict.mem d k) eqn:E.
  - apply mem_In in E. split; [tauto|]. intros [->|H]; assumption.
  - rewrite in_app_iff. simpl. intuition congruence.
Qed.

Lemma NoDup_keys_set d k v :
  NoDup (Dict.keys d) -> NoDup (Dict.keys (Dict.set d k v)).
Proof.
  intros Hnd. rewrite keys_set. destruct (Dict.mem d k) eqn:E; [assumption|].
  assert (Hk : ~ In k (Dict.keys d)).
  { intros Hi. apply mem_In in Hi. congruence. }
  apply NoDup_rev in Hnd. rewrite <- (rev_involutive (Dict.keys d ++ [k])).
  apply NoDup_rev. rewrite rev_app_distr. simpl.
  constructor; [rewrite <- in_rev; assumption | assumption].
Qed.

Lemma get_default_set_same d k v v0 :
  Dict.get_default (Dict.set d k v) k v0 = v.
Proof. unfold Dict.get_default. now rewrite get_set_same. Qed.

Lemma get_default_set_other d k k' v v0 :
  k <> k' ->
  Dict.get_default (Dict.set d k v) k' v0 = Dict.get_default d k' v0.
Proof. intros H. unfold Dict.get_default. now rewrite get_set_other. Qed.

End Facts.

End DictFacts.

(** ** The scoring loop *)

Module ScoringFacts.

Import AssessmentAttempt Scoring.

Lemma getitem_raises {A : Type} (l : list A) (i : Z) (e : exn) :
  getitem l i = Raise e -> e = IndexError.
Proof.
  unfold getitem.
  destruct (_ || _)%bool; [now intros [= <-]|].
  destruct (nth_error l _); [discriminate | now intros [= <-]].
Qed.

Ltac getitem_cases :=
  match goal with
  | |- context [getitem ?l ?i] =>
      let E := fresh "E" in
      destruct (getitem l i) as [?o|?e] eqn:E;
      [ | apply getitem_raises in E; subst ]
  end.

Lemma convertible_no_escape (answers : Dict.t json) (q : Question.t) :
  match Dict.get answers (str (Question.id q)) with
  | Some v => convertible v = true
  | None => True
  end ->
  escaping answers q = None.
Proof.
  unfold escaping, submitted.
  destruct (Dict.get answers _) as [v|]; [|reflexivity].
  intros Hc.
  destruct v as [|b|z|[x| |n]|s0|l|m]; simpl in Hc;
    try discriminate; try reflexivity; unfold selected_option; simpl.
  - getitem_cases; reflexivity.
  - getitem_cases; reflexivity.
  - getitem_cases; reflexivity.
  - unfold PyInt.of_string. destruct (PyInt.signed _); simpl; [|reflexivity].
    getitem_cases; reflexivity.
Qed.

Lemma score_question_cases (answers : Dict.t json) (a : acc) (q : Question.t) :
  score_question answers a q =
  match escaping answers q with
  | Some e => Raise e
  | None => Val (step answers a q)
  end.
Proof.
  unfold score_question, escaping, step, answered_correctly, submitted, hit, miss.
  destruct (Dict.get answers (str (Question.id q))) as [[]|]; try reflexivity;
    (destruct (selected_option q _) as [o|[]]; reflexivity).
Qed.

(** The loop returns exactly when no question lets an exception out, and
    then it is the fold of [step]. *)
Lemma loop_Val_iff (answers : Dict.t json) (qs : list Question.t) (a a' : acc) :
  for_each (score_question answers) qs a = Val a' <->
  (forall q, In q qs -> escaping answers q = None) /\
  a' = fold_left (step answers) qs a.
Proof.
  revert a. induction qs as [|q qs IH]; intros a; simpl.
  - split; [intros [= <-]; split; [contradiction | reflexivity]
           | intros [_ ->]; reflexivity].
  - rewrite score_question_cases.
    destruct (escaping answers q) as [e|] eqn:E; simpl.
    + split; [discriminate|]. intros [H _].
      specialize (H q (or_introl eq_refl)). congruence.
    + rewrite IH. split; intros [H ->]; split; auto.
      intros q' [<-|Hq]; auto.
Qed.

Lemma loop_raises (answers : Dict.t json) (qs : list Question.t) (a : acc) (e : exn) :
  for_each (score_question answers) qs a = Raise e ->
  exists q, In q qs /\ escaping answers q = Some e.
Proof.
  revert a. induction qs as [|q qs IH]; intros a; simpl; [discriminate|].
  rewrite score_question_cases.
  destruct (escaping answers q) as [e'|] eqn:E; simpl.
  - intros [= <-]. exists q. auto.
  - intros H. destruct (IH _ H) as (q' & Hq & He). exists q'. auto.
Qed.


Lemma total_points_sum (qs : list Question.t) : total_points qs = sum_points qs.
Proof.
  unfold total_points.
  assert (H : forall n, fold_left N.add (map Question.points qs) n
                        = (n + sum_points qs)%N).
  { induction qs as [|q qs IH]; intros n; simpl; [lia|]. rewrite IH. lia. }
  apply H.
Qed.

Lemma sum_points_filter_le (f : Question.t -> bool) (qs : list Question.t) :
  (sum_points (filter f qs) <= sum_points qs)%N.
Proof.
  induction qs as [|q qs IH]; simpl; [lia|].
  destruct (f q); simpl; lia.
Qed.

Section Fold.

Variable answers : Dict.t json.

Lemma fold_earned (qs : list Question.t) (a : acc) :
  earned_points (fold_left (step answers) qs a)
  = (earned_points a + earned answers qs)%N.
Proof.
  unfold earned. revert a. induction qs as [|q qs IH]; intros a; simpl; [lia|].
  rewrite IH. unfold step.
  destruct (answered_correctly answers q); simpl; lia.
Qed.

Lemma fold_skill_total (k : string) (qs : list Question.t) (a : acc) :
  Dict.get_default (skill_total (fold_left (step answers) qs a)) k 0%N
  = (Dict.get_default (skill_total a) k 0 + skill_points qs k)%N.
Proof.
  unfold skill_points. revert a.
  induction qs as [|q qs IH]; intros a; simpl; [lia|].
  rewrite IH. unfold has_skill.
  assert (Hs : skill_total (step answers a q) = skill_total (miss a q)).
  { unfold step. destruct (answered_correctly answers q); reflexivity. }
  rewrite Hs. simpl.
  destruct (String.eqb_spec (skill_of q) k) as [->|Hk]; simpl.
  - rewrite DictFacts.get_default_set_same. lia.
  - rewrite DictFacts.get_default_set_other by assumption. reflexivity.
Qed.

Lemma fold_skill_correct (k : string) (qs : list Question.t) (a : acc) :
  Dict.get_default (skill_correct (fold_left (step answers) qs a)) k 0%N
  = (Dict.get_default (skill_correct a) k 0 + skill_earned answers qs k)%N.
Proof.
  unfold skill_earned. revert a.
  induction qs as [|q qs IH]; intros a; simpl; [lia|].
  rewrite IH. unfold step, has_skill.
  destruct (answered_correctly answers q); simpl.
  - destruct (String.eqb_spec (skill_of q) k) as [->|Hk]; simpl.
    + rewrite DictFacts.get_default_set_same. lia.
    + rewrite DictFacts.get_default_set_other by assumption. reflexivity.
  - rewrite andb_false_r. reflexivity.
Qed.

Lemma fold_skill_total_keys (k : string) (qs : list Question.t) (a : acc) :
  In k (Dict.keys (skill_total (fold_left (step answers) qs a))) <->
  In k (Dict.keys (skill_total a)) \/ In k (map skill_of qs).
Proof.
  revert a. induction qs as [|q qs IH]; intros a; simpl; [tauto|].
  rewrite IH.
  assert (Hs : skill_total (step answers a q) = skill_total (miss a q)).
  { unfold step. destruct (answered_correctly answers q); reflexivity. }
  rewrite Hs. simpl. rewrite DictFacts.In_keys_set.
  intuition congruence.
Qed.

Lemma fold_skill_total_NoDup (qs : list Question.t) (a : acc) :
  NoDup (Dict.keys (skill_total a)) ->
  NoDup (Dict.keys (skill_total (fold_left (step answers) qs a))).
Proof.
  revert a. induction qs as [|q qs IH]; intros a Hnd; simpl; [assumption|].
  apply IH.
  assert (Hs : skill_total (step answers a q) = skill_total (miss a q)).
  { unfold step. destruct (answered_correctly answers q); reflexivity. }
  rewrite Hs. simpl. now apply DictFacts.NoDup_keys_set.
Qed.

End Fold.

(** *** The loop over [skill_total.items()] *)

Lemma overall_Val (e t : N) : overall e t = Val (percentage e t).
Proof.
  unfold overall, percentage, truediv.
  destruct (0 <? t)%N eqn:E; [|reflexivity].
  apply N.ltb_lt in E. destruct (N.eqb_spec t 0); [lia | reflexivity].
Qed.

Lemma store_skill_Val (correct : Dict.t N) (sc : Dict.t Q) (item : string * N) :
  store_skill correct sc item = Val (store correct sc item).
Proof.
  destruct item as [k t]. unfold store_skill, store, skill_score, truediv; simpl.
  destruct (0 <? t)%N eqn:E; [|reflexivity].
  apply N.ltb_lt in E. destruct (N.eqb_spec t 0); [lia | reflexivity].
Qed.

Section Store.

Variable correct : Dict.t N.

Lemma fold_store_keys (items : list (string * N)) (sc : Dict.t Q) (k : string) :
  In k (Dict.keys (fold_left (store correct) items sc)) <->
  In k (Dict.keys sc) \/ In k (map fst items).
Proof.
  revert sc. induction items as [|it items IH]; intros sc; simpl; [tauto|].
  rewrite IH. unfold store. rewrite DictFacts.In_keys_set.
  intuition congruence.
Qed.


Lemma fold_store_get_other (items : list (string * N)) (sc : Dict.t Q) (k : string) :
  ~ In k (map fst items) ->
  Dict.get (fold_left (store correct) items sc) k = Dict.get sc k.
Proof.
  revert sc. induction items as [|it items IH]; intros sc H; simpl; [reflexivity|].
  simpl in H. rewrite IH by tauto.
  unfold store. apply DictFacts.get_set_other. tauto.
Qed.

Lemma fold_store_get (items : list (string * N)) (sc : Dict.t Q) (k : string) (t : N) :
  NoDup (map fst items) -> In (k, t) items ->
  Dict.get (fold_left (store correct) items sc) k
  = Some (if (0 <? t)%N
          then round2 (QN (Dict.get_default correct k 0%N) / QN t * 100)%Q
          else 0%Q).
Proof.
  revert sc. induction items as [|it items IH]; intros sc Hnd Hin; simpl.
  - contradiction.
  - inversion Hnd as [|? ? Hn Hnd']; subst.
    destruct Hin as [->|Hin].
    + rewrite fold_store_get_other by assumption.
      unfold store; simpl. apply DictFacts.get_set_same.
    + now apply IH.
Qed.

End Store.

(** *** The whole method *)

Lemma calculate_score_Val_iff (self att : t) (s : Q) :
  calculate_score self = Val (att, s) <->
  (forall q, In q (Assessment.questions (assessment self)) ->
             escaping (answers self) q = None) /\
  att = scored self /\ s = score (scored self).
Proof.
  unfold calculate_score.
  destruct (for_each (score_question (answers self)) _ acc0) as [a|e] eqn:El;
    simpl.
  - apply loop_Val_iff in El. destruct El as [Hesc ->].
    rewrite overall_Val. simpl.
    rewrite (for_each_pure _ (store (skill_correct _)))
      by (intros; apply store_skill_Val).
    simpl. fold (final_acc self). unfold scored. simpl.
    split.
    + intros [= <- <-]. auto.
    + intros (_ & -> & ->). reflexivity.
  - split; [discriminate|]. intros (Hesc & _).
    apply loop_raises in El. destruct El as (q & Hq & He).
    rewrite (Hesc q Hq) in He. discriminate.
Qed.


Lemma convertible_answers_returns (self : t) :
  convertible_answers self = true ->
  calculate_score self = Val (scored self, score (scored self)).
Proof.
  intros H. apply calculate_score_Val_iff. repeat split.
  intros q Hq. apply convertible_no_escape.
  unfold convertible_answers in H. rewrite forallb_forall in H.
  specialize (H q Hq). destruct (Dict.get _ _); auto.
Qed.

(** [calculate_score] returns exactly on the submissions whose looked-up
    values are [convertible]. *)
Lemma calculate_score_returns_iff (self : t) :
  convertible_answers self = true <->
  exists att s, calculate_score self = Val (att, s).
Proof.
  split.
  - intros H. eauto using convertible_answers_returns.
  - intros (att & s & H). apply calculate_score_Val_iff in H.
    destruct H as (Hesc & _). unfold convertible_answers.
    apply forallb_forall. intros q Hq. specialize (Hesc q Hq).
    unfold escaping, submitted, selected_option in Hesc.
    destruct (Dict.get (answers self) (str (Question.id q)))
      as [[|b|z|[x| |n]|s0|l|m]|]; try reflexivity; discriminate.
Qed.

(** *** The attempt after scoring *)

Lemma final_earned (self : t) :
  earned_points (final_acc self)
  = earned (answers self) (Assessment.questions (assessment self)).
Proof. unfold final_acc. rewrite fold_earned. reflexivity. Qed.

Lemma score_scored (self : t) :
  score (scored self)
  = percentage (earned (answers self) (Assessment.questions (assessment self)))
      (sum_points (Assessment.questions (assessment self))).
Proof.
  unfold scored; simpl. now rewrite final_earned, total_points_sum.
Qed.

Lemma skill_total_items (self : t) (k : string) :
  In k (map skill_of (Assessment.questions (assessment self))) ->
  In (k, skill_points (Assessment.questions (assessment self)) k)
     (Dict.items (skill_total (final_acc self))).
Proof.
  intros Hk. unfold Dict.items.
  assert (Hin : In k (Dict.keys (skill_total (final_acc self)))).
  { unfold final_acc. apply fold_skill_total_keys. now right. }
  pose proof (fold_skill_total (answers self) k
                (Assessment.questions (assessment self)) acc0) as Ht.
  fold (final_acc self) in Ht. simpl in Ht.
  unfold Dict.get_default in Ht at 1.
  destruct (Dict.get (skill_total (final_acc self)) k) as [v|] eqn:E.
  - apply DictFacts.get_Some_In in E. simpl in Ht. now subst v.
  - apply DictFacts.get_None in E. contradiction.
Qed.

Lemma skill_scores_keys (self : t) (k : string) :
  In k (Dict.keys (skill_scores (scored self))) <->
  In k (Dict.keys (skill_scores self)) \/
  In k (map skill_of (Assessment.questions (assessment self))).
Proof.
  unfold scored; simpl. rewrite fold_store_keys.
  change (map fst (Dict.items ?d)) with (Dict.keys d).
  unfold final_acc. rewrite fold_skill_total_keys. simpl. tauto.
Qed.

Lemma skill_scores_get (self : t) (k : string) :
  In k (map skill_of (Assessment.questions (assessment self))) ->
  Dict.get (skill_scores (scored self)) k
  = Some (let c := skill_earned (answers self)
                     (Assessment.questions (assessment self)) k in
          let t := skill_points (Assessment.questions (assessment self)) k in
          if (0 <? t)%N then round2 (QN c / QN t * 100)%Q else 0%Q).
Proof.
  intros Hk. unfold scored; simpl.
  rewrite fold_store_get
    with (t := skill_points (Assessment.questions (assessment self)) k).
  - pose proof (fold_skill_correct (answers self) k
                  (Assessment.questions (assessment self)) acc0) as Hc.
    fold (final_acc self) in Hc. simpl in Hc. rewrite Hc. reflexivity.
  - change (map fst (Dict.items ?d)) with (Dict.keys d).
    unfold final_acc. apply fold_skill_total_NoDup. constructor.
  - now apply skill_total_items.
Qed.

End ScoringFacts.

(** ** Percentages *)

Module PercentFacts.

Import Scoring.

Local Open Scope Q_scope.

Lemma QN_le (a b : N) : (a <= b)%N -> QN a <= QN b.
Proof. intros H. unfold QN. rewrite <- Zle_Qle. lia. Qed.

Lemma QN_pos (n : N) : (0 < n)%N -> 0 < QN n.
Proof. intros H. unfold QN. change 0 with (inject_Z 0). rewrite <- Zlt_Qlt. lia. Qed.

Lemma QN_nonneg (n : N) : 0 <= QN n.
Proof. unfold QN. change 0 with (inject_Z 0). rewrite <- Zle_Qle. lia. Qed.

Lemma ratio_range (c t : N) :
  (c <= t)%N -> (0 < t)%N -> 0 <= QN c / QN t <= 1.
Proof.
  intros Hc Ht. pose proof (QN_pos Ht) as Hp. split.
  - apply Qle_shift_div_l; [assumption|]. rewrite Qmult_0_l. apply QN_nonneg.
  - apply Qle_shift_div_r; [assumption|]. rewrite Qmult_1_l. now apply QN_le.
Qed.

Lemma percentage_range (c t : N) :
  (c <= t)%N -> 0 <= percentage c t <= 100.
Proof.
  intros Hc. unfold percentage.
  destruct (0 <? t)%N eqn:E; [|split; discriminate].
  apply N.ltb_lt in E. destruct (ratio_range Hc E) as [H0 H1]. split.
  - apply Qmult_le_0_compat; [assumption | discriminate].
  - setoid_replace 100 with (1 * 100) at 2 by reflexivity.
    apply Qmult_le_compat_r; [assumption | discriminate].
Qed.

Lemma percentage_full (t : N) : (0 < t)%N -> percentage t t == 100.
Proof.
  intros Ht. unfold percentage.
  apply N.ltb_lt in Ht. rewrite Ht. apply N.ltb_lt in Ht.
  unfold Qdiv. rewrite Qmult_inv_r.
  - reflexivity.
  - intros H. pose proof (QN_pos Ht) as Hp. rewrite H in Hp. discriminate.
Qed.

(** [round_half_even] is a nearest integer, and the even one on a tie. *)
Lemma round_half_even_spec (q : Q) :
  Qabs (inject_Z (round_half_even q) - q) <= 1 # 2 /\
  (Qabs (inject_Z (round_half_even q) - q) == 1 # 2 ->
   Z.even (round_half_even q) = true).
Proof.
  unfold round_half_even.
  pose proof (Qfloor_le q) as Hlo. pose proof (Qlt_floor q) as Hhi.
  rewrite inject_Z_plus in Hhi. change (inject_Z 1) with 1 in Hhi.
  destruct (Qcompare_spec (q - inject_Z (Qfloor q)) (1 # 2)) as [He|Hl|Hg].
  - destruct (Z.even (Qfloor q)) eqn:Ev.
    + split; [apply Qabs_case; intros; lra | auto].
    + split.
      * rewrite inject_Z_plus. change (inject_Z 1) with 1.
        apply Qabs_case; intros; lra.
      * intros _. rewrite Z.even_add, Ev. reflexivity.
  - split; [apply Qabs_case; intros; lra|].
    apply Qabs_case; intros; lra.
  - rewrite inject_Z_plus. change (inject_Z 1) with 1.
    split; [apply Qabs_case; intros; lra|].
    apply Qabs_case; intros; lra.
Qed.


End PercentFacts.

(** ** List indexing and the first flagged option *)

Module IndexFacts.

Import AssessmentAttempt Scoring.

Lemma getitem_nonneg {A : Type} (l : list A) (i : nat) (a : A) :
  nth_error l i = Some a -> getitem l (Z.of_nat i) = Val a.
Proof.
  intros H. unfold getitem.
  assert (Hlt : (i < List.length l)%nat) by (apply nth_error_Some; congruence).
  destruct (Z.ltb_spec (Z.of_nat i) 0); [lia|].
  destruct (Z.ltb_spec (Z.of_nat i) 0); [lia|].
  destruct (Z.leb_spec (Z.of_nat (List.length l)) (Z.of_nat i)); [lia|].
  simpl. rewrite Nat2Z.id, H. reflexivity.
Qed.

(** A negative index [-k] selects the [k]-th element from the end. *)
Lemma getitem_negative {A : Type} (l : list A) (k : Z) :
  (1 <= k <= Z.of_nat (List.length l))%Z ->
  exists a, nth_error l (List.length l - Z.to_nat k) = Some a /\
            getitem l (- k) = Val a.
Proof.
  intros Hk. unfold getitem.
  destruct (Z.ltb_spec (- k) 0); [|lia].
  destruct (Z.ltb_spec (- k + Z.of_nat (List.length l)) 0); [lia|].
  destruct (Z.leb_spec (Z.of_nat (List.length l))
              (- k + Z.of_nat (List.length l))); [lia|].
  simpl.
  replace (Z.to_nat (- k + Z.of_nat (List.length l)))
    with (List.length l - Z.to_nat k)%nat by lia.
  destruct (nth_error l (List.length l - Z.to_nat k)) as [a|] eqn:E.
  - eauto.
  - apply nth_error_None in E. lia.
Qed.

Lemma getitem_out_of_range {A : Type} (l : list A) (i : Z) :
  (i < - Z.of_nat (List.length l) \/ Z.of_nat (List.length l) <= i)%Z ->
  getitem l i = Raise IndexError.
Proof.
  intros H. unfold getitem.
  destruct (Z.ltb_spec i 0).
  - destruct (Z.ltb_spec (i + Z.of_nat (List.length l)) 0); [reflexivity | lia].
  - destruct (Z.ltb_spec i 0); [lia|].
    destruct (Z.leb_spec (Z.of_nat (List.length l)) i); [reflexivity | lia].
Qed.

Lemma first_correct_index_nth (opts : list Question.option_t) (n idx : nat) :
  AttemptResultSerializer.first_correct_index opts n = Some idx ->
  (n <= idx)%nat /\
  exists o, nth_error opts (idx - n) = Some o /\ Question.isCorrect o = true.
Proof.
  revert n. induction opts as [|o opts IH]; intros n; simpl; [discriminate|].
  destruct (Question.isCorrect o) eqn:E.
  - intros [= <-]. split; [lia|]. rewrite Nat.sub_diag. simpl. eauto.
  - intros H. apply IH in H. destruct H as (Hle & o' & Hn & Hc).
    split; [lia|]. exists o'. split; [|assumption].
    replace (idx - n)%nat with (S (idx - S n)) by lia. assumption.
Qed.

Lemma selects_correct_answered (answers : Dict.t json) (q : Question.t) :
  selects_correct answers q = true ->
  answered_correctly answers q = true /\ escaping answers q = None.
Proof.
  unfold selects_correct, answered_correctly, escaping.
  destruct (submitted answers q) as [v|]; [|discriminate].
  destruct (AttemptResultSerializer.first_correct_index _ 0) as [idx|] eqn:Ef;
    [|discriminate].
  unfold selected_option.
  destruct (PyInt.int v) as [i|e]; [|discriminate].
  intros Hi. apply Z.eqb_eq in Hi. subst i. simpl.
  apply first_correct_index_nth in Ef. destruct Ef as (_ & o & Hn & Hc).
  rewrite Nat.sub_0_r in Hn. rewrite (getitem_nonneg _ _ Hn). auto.
Qed.

End IndexFacts.

(* ================================================================== *)
(** * The scoring engine *)

Section ScoringClaims.

Import AssessmentAttempt Scoring.

Local Open Scope Q_scope.

Local Abbreviation questions_of self := (Assessment.questions (assessment self)).

(** C1, evaluated where the code and the claim part: a question with two
    options flagged correct, the second one submitted.  The first flagged
    option is "A" at index 0, the feedback reports the answer as not
    correct, and [calculate_score] still awards the question's points. *)
Theorem second_flagged_option_scores :
  exists att s,
    calculate_score Examples.two_flagged = Val (att, s) /\
    s == 100 /\ passed att = true /\
    Question.get_correct_answer Examples.two_flagged_question = Some "A"%string /\
    selects_correct (answers Examples.two_flagged)
      Examples.two_flagged_question = false /\
    AttemptResultSerializer.question_feedback (answers Examples.two_flagged)
      Examples.two_flagged_question
    = Val {| AttemptResultSerializer.selected_answer := Some (JInt 1);
             AttemptResultSerializer.correct_answer := Some 0%nat;
             AttemptResultSerializer.is_correct := false |}.
Proof.
  eexists; eexists. split; [vm_compute; reflexivity|].
  repeat split; reflexivity.
Qed.

(** What [calculate_score] tests: the flag of the option selected. *)
Lemma answered_correctly_iff (ans : Dict.t json) (q : Question.t) :
  answered_correctly ans q = true <->
  exists v i o,
    submitted ans q = Some v /\ PyInt.int v = Val i /\
    getitem (Question.options q) i = Val o /\ Question.isCorrect o = true.
Proof.
  unfold answered_correctly, selected_option. split.
  - destruct (submitted ans q) as [v|]; [|discriminate].
    destruct (PyInt.int v) as [i|e] eqn:Ei; simpl; [|discriminate].
    destruct (getitem (Question.options q) i) as [o|e] eqn:Eg; [|discriminate].
    intros H. exists v, i, o. auto.
  - intros (v & i & o & -> & -> & Ho & Hc). simpl. now rewrite Ho.
Qed.


Lemma anomalous_not_correct (ans : Dict.t json) (q : Question.t) :
  anomalous ans q ->
  answered_correctly ans q = false /\ escaping ans q = None.
Proof.
  unfold anomalous, answered_correctly, escaping.
  intros [->|(v & -> & [Hv|(i & Hi & Hr)])]; unfold selected_option.
  - auto.
  - rewrite Hv. auto.
  - rewrite Hi. simpl. rewrite IndexFacts.getitem_out_of_range by assumption. auto.
Qed.

Lemma miss_counts_as_incorrect (ans : Dict.t json) (q : Question.t) :
  answered_correctly ans q = false -> escaping ans q = None ->
  counts_as_incorrect ans q.
Proof.
  intros Hc He a. exists (miss a q).
  rewrite ScoringFacts.score_question_cases, He. unfold step. rewrite Hc.
  repeat split.
Qed.



(** C4.  The points earned in the loop never exceed the sum of the
    questions' points, and the score lies between 0 and 100. *)
Theorem earned_points_bounded (self : t)
  (Hc : convertible_answers self = true) :
  exists a att s,
    for_each (score_question (answers self)) (questions_of self) acc0 = Val a /\
    calculate_score self = Val (att, s) /\
    (earned_points a <= total_points (questions_of self))%N /\
    0 <= s <= 100 /\ s = score att.
Proof.
  pose proof (ScoringFacts.convertible_answers_returns _ Hc) as Hr.
  pose proof Hr as Hi. apply ScoringFacts.calculate_score_Val_iff in Hi.
  destruct Hi as (Hesc & _ & _).
  exists (final_acc self), (scored self), (score (scored self)).
  assert (Hle : (earned (answers self) (questions_of self)
                 <= sum_points (questions_of self))%N)
    by apply ScoringFacts.sum_points_filter_le.
  repeat split.
  - apply ScoringFacts.loop_Val_iff. split; [assumption | reflexivity].
  - assumption.
  - rewrite ScoringFacts.final_earned, ScoringFacts.total_points_sum. exact Hle.
  - rewrite ScoringFacts.score_scored. now apply PercentFacts.percentage_range.
  - rewrite ScoringFacts.score_scored. now apply PercentFacts.percentage_range.
Qed.

Lemma earned_points_bounded_witness :
  convertible_answers Examples.spec_example = true /\
  exists a att s,
    for_each (score_question (answers Examples.spec_example))
      (questions_of Examples.spec_example) acc0 = Val a /\
    calculate_score Examples.spec_example = Val (att, s) /\
    (earned_points a <= total_points (questions_of Examples.spec_example))%N /\
    0 <= s <= 100 /\ s = score att.
Proof.
  split; [reflexivity|].
  apply (earned_points_bounded Examples.spec_example). reflexivity.
Defined.



(** C7, as stated, fails on an assessment without questions: every
    question is answered correctly, the score is 0 and the attempt does
    not pass the threshold 70. *)
Lemma no_questions_not_full_credit :
  forallb (selects_correct (answers Examples.no_questions))
    (questions_of Examples.no_questions) = true /\
  (Assessment.passing_score (assessment Examples.no_questions) <= 100)%N /\
  exists att s,
    calculate_score Examples.no_questions = Val (att, s) /\
    ~ s == 100 /\ passed att = false.
Proof.
  split; [reflexivity|]. split; [vm_compute; discriminate|].
  eexists; eexists. split; [vm_compute; reflexivity|].
  split; [discriminate | reflexivity].
Qed.

Lemma all_selected_earned (ans : Dict.t json) (qs : list Question.t) :
  forallb (selects_correct ans) qs = true ->
  earned ans qs = sum_points qs /\
  forall q, In q qs -> escaping ans q = None.
Proof.
  rewrite forallb_forall. intros H. split.
  - unfold earned. induction qs as [|q qs IH]; simpl; [reflexivity|].
    destruct (IndexFacts.selects_correct_answered ans q) as [-> _].
    + apply H. now left.
    + simpl. rewrite IH; [reflexivity|]. intros; apply H; now right.
  - intros q Hq. now apply IndexFacts.selects_correct_answered, H.
Qed.

(** C7, amended.  When the questions carry at least one point in total,
    the threshold is at most 100 and every question is answered with the
    index of its first flagged option, [calculate_score] returns 100 and
    the attempt passes. *)
Theorem full_credit (self : t)
  (Hall : forallb (selects_correct (answers self)) (questions_of self) = true)
  (Hth : (Assessment.passing_score (assessment self) <= 100)%N)
  (Hpos : (0 < total_points (questions_of self))%N) :
  exists att s,
    calculate_score self = Val (att, s) /\
    s == 100 /\ score att == 100 /\ passed att = true.
Proof.
  destruct (all_selected_earned _ _ Hall) as [He Hesc].
  rewrite ScoringFacts.total_points_sum in Hpos.
  assert (Hs : score (scored self) == 100).
  { rewrite ScoringFacts.score_scored, He.
    now apply PercentFacts.percentage_full. }
  exists (scored self), (score (scored self)). split; [|split; [|split]].
  - apply ScoringFacts.calculate_score_Val_iff. auto.
  - exact Hs.
  - exact Hs.
  - change (passed (scored self))
      with (Qle_bool (QN (Assessment.passing_score (assessment self)))
                     (score (scored self))).
    apply Qle_bool_iff. rewrite Hs.
    change 100 with (QN 100). now apply PercentFacts.QN_le.
Qed.

Lemma full_credit_witness :
  exists att s,
    calculate_score Examples.all_correct = Val (att, s) /\
    s == 100 /\ score att == 100 /\ passed att = true.
Proof.
  apply (full_credit Examples.all_correct).
  - reflexivity.
  - vm_compute; discriminate.
  - reflexivity.
Defined.


(** In binary64 too the quotient of that input is exactly 3.125. *)
Example one_of_32_binary64 :
  option_map Qred (Binary64.value (Binary64.percentage 1 32))
  = Some (Qred (3125 # 1000)).
Proof. reflexivity. Qed.






(** C10.  An answer that [int] turns into [-k], with [k] between 1 and
    the number of options, selects the [k]-th option from the end; the
    question earns its points exactly when that option is flagged
    correct, so the answer -1 earns them whenever the last option is
    flagged. *)
Theorem negative_index_counts_from_end
  (ans : Dict.t json) (q : Question.t) (v : json) (k : Z)
  (Hs : submitted ans q = Some v)
  (Hv : PyInt.int v = Val (- k)%Z)
  (Hk : (1 <= k <= Z.of_nat (List.length (Question.options q)))%Z) :
  exists o,
    nth_error (Question.options q)
      (List.length (Question.options q) - Z.to_nat k) = Some o /\
    selected_option q v = Val o /\
    answered_correctly ans q = Question.isCorrect o /\
    forall a,
      score_question ans a q
      = Val (if Question.isCorrect o then hit a q else miss a q) /\
      (Question.isCorrect o = true ->
       earned_points (hit a q) = (earned_points a + Question.points q)%N).
Proof.
  destruct (IndexFacts.getitem_negative (Question.options q) Hk)
    as (o & Hn & Hg).
  assert (Hsel : selected_option q v = Val o).
  { unfold selected_option. rewrite Hv. exact Hg. }
  assert (Hac : answered_correctly ans q = Question.isCorrect o).
  { unfold answered_correctly. now rewrite Hs, Hsel. }
  exists o. repeat split; try assumption.
  rewrite ScoringFacts.score_question_cases.
  unfold escaping, step. now rewrite Hs, Hsel, Hac.
Qed.

Lemma negative_index_counts_from_end_witness :
  exists o,
    nth_error (Question.options Examples.last_flagged_question)
      (List.length (Question.options Examples.last_flagged_question)
       - Z.to_nat 1) = Some o /\
    selected_option Examples.last_flagged_question (JInt (-1)) = Val o /\
    answered_correctly (answers Examples.minus_one)
      Examples.last_flagged_question = Question.isCorrect o /\
    forall a,
      score_question (answers Examples.minus_one) a Examples.last_flagged_question
      = Val (if Question.isCorrect o
             then hit a Examples.last_flagged_question
             else miss a Examples.last_flagged_question) /\
      (Question.isCorrect o = true ->
       earned_points (hit a Examples.last_flagged_question)
       = (earned_points a + Question.points Examples.last_flagged_question)%N).
Proof.
  apply (@negative_index_counts_from_end (answers Examples.minus_one)
           Examples.last_flagged_question (JInt (-1)) 1%Z).
  - reflexivity.
  - reflexivity.
  - simpl; lia.
Defined.

(** The whole method on that input: the answer -1 earns full credit. *)
Example minus_one_full_credit :
  exists att s,
    calculate_score Examples.minus_one = Val (att, s) /\
    s == 100 /\ passed att = true.
Proof.
  eexists; eexists. split; [vm_compute; reflexivity|].
  split; reflexivity.
Qed.

End ScoringClaims.

(* ================================================================== *)
(** * Levels *)

Section LevelClaims.

Import UserGamification.


Lemma level_of_sqrt (xp : N) : level_of xp = (Z.sqrt (Z.of_N xp / 100) + 1)%Z.
Proof.
  unfold level_of, int_sqrt, QN. simpl. rewrite Z.mul_1_r.
  pose proof (Z.sqrt_nonneg (Z.of_N xp / 100)) as H.
  apply Z.max_r. revert H. generalize (Z.sqrt (Z.of_N xp / 100)). lia.
Qed.

(** On integers: [100 (l-1)^2 <= xp < 100 l^2] for the level [l]. *)
Lemma level_of_bounds (xp : N) :
  (1 <= level_of xp)%Z /\
  (100 * ((level_of xp - 1) * (level_of xp - 1)) <= Z.of_N xp
   < 100 * (level_of xp * level_of xp))%Z.
Proof.
  rewrite level_of_sqrt.
  assert (Hd : (0 <= Z.of_N xp / 100)%Z) by (apply Z.div_pos; lia).
  pose proof (Z.sqrt_spec _ Hd) as [Zlo Zhi].
  pose proof (Z.sqrt_nonneg (Z.of_N xp / 100)) as Zn.
  pose proof (Z.mul_div_le (Z.of_N xp) 100 ltac:(lia)) as Dlo.
  pose proof (Z.mul_succ_div_gt (Z.of_N xp) 100 ltac:(lia)) as Dhi.
  revert Zlo Zhi Zn Dlo Dhi.
  generalize (Z.sqrt (Z.of_N xp / 100)). generalize (Z.of_N xp / 100)%Z.
  intros d r. nia.
Qed.



(** Binary64 agrees with the exact square root at every level threshold
    a [PositiveIntegerField] can reach (total_xp < 2^31, levels up to 4635). *)
Example level_thresholds_binary64 :
  forallb Binary64.agrees_at (map N.of_nat (seq 1 4634)) = true.
Proof. vm_compute. reflexivity. Qed.


End LevelClaims.

(* ================================================================== *)
(** * Skill gaps *)

(** ** The stable descending sort *)

Module SortFacts.

Import PySorted.

Section Sort.

Context {A : Type}.
Implicit Types (x y : Q * A) (l : list (Q * A)).

Lemma insert_perm x l : Permutation (insert x l) (x :: l).
Proof.
  induction l as [|y l IH]; simpl; [reflexivity|].
  destruct (Qle_bool (fst y) (fst x)); [reflexivity|].
  rewrite IH. apply perm_swap.
Qed.

Lemma sort_perm l : Permutation (sort_reverse l) l.
Proof.
  induction l as [|x l IH]; simpl; [reflexivity|].
  unfold sort_reverse in *. simpl. rewrite insert_perm. now constructor.
Qed.

Lemma insert_sorted x l :
  StronglySorted desc l -> StronglySorted desc (insert x l).
Proof.
  induction 1 as [|y l Hs IH Hall]; simpl.
  - repeat constructor.
  - destruct (Qle_bool (fst y) (fst x)) eqn:E.
    + apply Qle_bool_iff in E. constructor; [now constructor|].
      constructor; [exact E|].
      eapply Forall_impl; [|exact Hall].
      intros z Hz. unfold desc in *. now apply Qle_trans with (fst y).
    + assert (Hlt : (fst x < fst y)%Q).
      { apply Qnot_le_lt. intros H. apply Qle_bool_iff in H. congruence. }
      constructor; [exact IH|].
      apply Forall_forall. intros z Hz.
      apply (Permutation_in _ (insert_perm x l)) in Hz.
      destruct Hz as [<-|Hz].
      * unfold desc. now apply Qlt_le_weak.
      * rewrite Forall_forall in Hall. now apply Hall.
Qed.

Lemma sort_sorted l : StronglySorted desc (sort_reverse l).
Proof.
  induction l as [|x l IH]; [constructor|].
  unfold sort_reverse in *. simpl. now apply insert_sorted.
Qed.



End Sort.

(** The sort looks at the keys only. *)
Lemma sort_map_snd {A B : Type} (h : A -> B) (l : list (Q * A)) :
  sort_reverse (map (fun e => (fst e, h (snd e))) l)
  = map (fun e => (fst e, h (snd e))) (sort_reverse l).
Proof.
  induction l as [|x l IH]; [reflexivity|].
  unfold sort_reverse in *. simpl. rewrite IH.
  generalize (fold_right insert [] l). intros s.
  induction s as [|y s IHs]; [reflexivity|].
  simpl. destruct (Qle_bool (fst y) (fst x)); [reflexivity|].
  simpl. now rewrite IHs.
Qed.

End SortFacts.

(** ** The dictionary of gaps *)

Module GapFacts.

Import AssessmentViewSet Gaps.

Lemma filter_twice {A : Type} (f g : A -> bool) (l : list A) :
  filter f (filter g l) = filter (fun a => g a && f a)%bool l.
Proof.
  induction l as [|a l IH]; simpl; [reflexivity|].
  destruct (g a); simpl; [destruct (f a)|]; now rewrite IH.
Qed.

Lemma mem_set {V : Type} (d : Dict.t V) (k x : string) (v : V) :
  Dict.mem (Dict.set d k v) x = (String.eqb k x || Dict.mem d x)%bool.
Proof.
  unfold Dict.mem. destruct (String.eqb_spec k x) as [->|Hne]; simpl.
  - now rewrite DictFacts.get_set_same.
  - now rewrite DictFacts.get_set_other.
Qed.

Lemma mem_record_gap (d : Dict.t (list Q)) (it : string * Q) (x : string) :
  Dict.mem (record_gap d it) x = (String.eqb (fst it) x || Dict.mem d x)%bool.
Proof.
  destruct it as [k s]. unfold record_gap. simpl. rewrite mem_set.
  destruct (Dict.mem d k) eqn:E; [reflexivity|].
  rewrite mem_set. now destruct (String.eqb k x).
Qed.

Lemma keys_record_gap (d : Dict.t (list Q)) (it : string * Q) :
  Dict.keys (record_gap d it)
  = if Dict.mem d (fst it) then Dict.keys d else Dict.keys d ++ [fst it].
Proof.
  destruct it as [k s]. unfold record_gap. simpl.
  rewrite DictFacts.keys_set.
  destruct (Dict.mem d k) eqn:E.
  - now rewrite E.
  - rewrite mem_set, String.eqb_refl. simpl.
    now rewrite DictFacts.keys_set, E.
Qed.

Lemma get_record_gap (d : Dict.t (list Q)) (it : string * Q) (x : string) :
  Dict.get_default (record_gap d it) x []
  = Dict.get_default d x [] ++ gaps_in [it] x.
Proof.
  destruct it as [k s]. unfold record_gap, gaps_in. simpl.
  assert (H1 : Dict.get_default
                 (if Dict.mem d k then d else Dict.set d k []) k []
               = Dict.get_default d k []).
  { unfold Dict.mem, Dict.get_default.
    destruct (Dict.get d k) eqn:E; [now rewrite E|].
    now rewrite DictFacts.get_set_same. }
  rewrite H1.
  destruct (String.eqb_spec x k) as [->|Hne]; simpl.
  - apply DictFacts.get_default_set_same.
  - rewrite DictFacts.get_default_set_other by congruence.
    rewrite app_nil_r. destruct (Dict.mem d k); [reflexivity|].
    apply DictFacts.get_default_set_other. congruence.
Qed.

Lemma gaps_in_app (l1 l2 : list (string * Q)) (k : string) :
  gaps_in (l1 ++ l2) k = gaps_in l1 k ++ gaps_in l2 k.
Proof. unfold gaps_in. now rewrite filter_app, map_app. Qed.

(** The keys come in the order of first occurrence. *)
Lemma keys_fold (items : list (string * Q)) (d : Dict.t (list Q)) :
  Dict.keys (fold_left record_gap items d)
  = Dict.keys d
    ++ filter (fun k => negb (Dict.mem d k)) (first_seen (map fst items)).
Proof.
  revert d. induction items as [|it items IH]; intros d; simpl.
  - now rewrite app_nil_r.
  - rewrite IH, keys_record_gap.
    rewrite (filter_ext _ (fun k => negb (String.eqb (fst it) k)
                                    && negb (Dict.mem d k))%bool)
      by (intros k; rewrite mem_record_gap; apply negb_orb).
    destruct (Dict.mem d (fst it)) eqn:E; simpl.
    + now rewrite filter_twice.
    + rewrite <- app_assoc. simpl. now rewrite filter_twice.
Qed.

Lemma get_fold (items : list (string * Q)) (d : Dict.t (list Q)) (k : string) :
  Dict.get_default (fold_left record_gap items d) k []
  = Dict.get_default d k [] ++ gaps_in items k.
Proof.
  revert d. induction items as [|it items IH]; intros d; simpl.
  - unfold gaps_in. simpl. now rewrite app_nil_r.
  - rewrite IH, get_record_gap, <- app_assoc.
    change (it :: items) with ([it] ++ items). now rewrite gaps_in_app.
Qed.

Lemma first_seen_In (ks : list string) (k : string) :
  In k (first_seen ks) <-> In k ks.
Proof.
  induction ks as [|k0 ks IH]; simpl; [tauto|].
  rewrite filter_In, IH.
  destruct (String.eqb_spec k0 k) as [->|Hne]; simpl; intuition congruence.
Qed.

Lemma first_seen_NoDup (ks : list string) : NoDup (first_seen ks).
Proof.
  induction ks as [|k0 ks IH]; simpl; constructor.
  - rewrite filter_In, String.eqb_refl. simpl. intros [_ H]. discriminate.
  - now apply NoDup_filter.
Qed.

(** A dictionary is its keys paired with what [get] finds for them. *)
Lemma dict_eta {V : Type} (d : Dict.t V) (v0 : V) :
  NoDup (Dict.keys d) ->
  d = map (fun k => (k, Dict.get_default d k v0)) (Dict.keys d).
Proof.
  induction d as [|[k v] d IH]; intros Hnd; simpl; [reflexivity|].
  inversion Hnd as [|? ? Hk Hnd']; subst.
  unfold Dict.get_default at 1. simpl. rewrite String.eqb_refl. f_equal.
  rewrite (IH Hnd') at 1. apply map_ext_in. intros k' Hk'.
  unfold Dict.get_default. simpl.
  destruct (String.eqb_spec k k') as [->|]; [contradiction | reflexivity].
Qed.

Lemma fold_left_flat_map {S A B : Type} (f : S -> B -> S) (g : A -> list B)
  (l : list A) (s : S) :
  fold_left (fun s a => fold_left f (g a) s) l s = fold_left f (flat_map g l) s.
Proof.
  revert s. induction l as [|a l IH]; intros s; simpl; [reflexivity|].
  now rewrite fold_left_app, IH.
Qed.

(** The dictionary built by [submit]: one entry per observed skill, in
    the order of first observation, holding that skill's gaps. *)
Lemma collect_gaps_eq (attempts : list AssessmentAttempt.t) :
  collect_gaps attempts
  = map (fun k => (k, gaps attempts k)) (observed_skills attempts).
Proof.
  unfold collect_gaps. rewrite fold_left_flat_map.
  fold (reported attempts).
  set (d := fold_left record_gap (reported attempts) Dict.empty).
  assert (Hk : Dict.keys d = observed_skills attempts).
  { unfold d. rewrite keys_fold. simpl.
    unfold observed_skills. apply filter_true. }
  rewrite (dict_eta d []) by (rewrite Hk; apply first_seen_NoDup).
  rewrite Hk. apply map_ext. intros k. f_equal.
  unfold d. now rewrite get_fold.
Qed.

Lemma gaps_nonempty (attempts : list AssessmentAttempt.t) (k : string) :
  In k (observed_skills attempts) -> gaps attempts k <> [].
Proof.
  unfold observed_skills, gaps, gaps_in. rewrite first_seen_In, in_map_iff.
  intros ([k' s] & Hk & Hin) H. simpl in Hk. subst k'.
  apply map_eq_nil in H.
  assert (Hf : In (k, s) (filter (fun it => String.eqb k (fst it))
                            (reported attempts))).
  { apply filter_In. split; [assumption|]. simpl. apply String.eqb_refl. }
  rewrite H in Hf. contradiction.
Qed.

End GapFacts.

(** ** The ranking stored by [submit] *)

Section GapClaims.

Import AssessmentViewSet Gaps PySorted.

Lemma map_py_pure {A B : Type} (f : A -> py B) (g : A -> B) (l : list A) :
  (forall a, In a l -> f a = Val (g a)) -> map_py f l = Val (map g l).
Proof.
  induction l as [|a l IH]; intros H; simpl; [reflexivity|].
  rewrite H by (now left). simpl.
  rewrite IH by (intros; apply H; now right). reflexivity.
Qed.

Lemma mean_Val (xs : list Q) : xs <> [] -> mean xs = Val (mean_value xs).
Proof. destruct xs; [contradiction | reflexivity]. Qed.

Lemma firstn_In {A : Type} (n : nat) (l : list A) (a : A) :
  In a (firstn n l) -> In a l.
Proof.
  revert l. induction n as [|n IH]; intros [|b l]; simpl; try tauto.
  intros [->|H]; auto.
Qed.

(** A list sorted on its keys, read through its payloads. *)
Lemma sorted_payloads {A : Type} (key : A -> Q) (l : list (Q * A)) :
  Forall (fun e => fst e = key (snd e)) l ->
  StronglySorted desc l ->
  StronglySorted (fun a b => (key b <= key a)%Q) (map snd l).
Proof.
  intros Hk Hs. induction Hs as [|e l Hs IH Hall]; simpl; constructor.
  - apply IH. now inversion Hk.
  - inversion Hk as [|? ? He Hl]; subst.
    rewrite Forall_map. rewrite Forall_forall in *.
    intros e' He'. specialize (Hall e' He'). unfold desc in Hall.
    now rewrite <- He, <- (Hl e' He').
Qed.

Variable attempts : list AssessmentAttempt.t.

(** The observed skills paired with their mean gaps, and sorted. *)
Let keyed : list (Q * string) :=
  map (fun k => (mean_gap attempts k, k)) (observed_skills attempts).

Let ranking : list string := map snd (sort_reverse keyed).


Lemma ranking_perm : Permutation ranking (observed_skills attempts).
Proof.
  unfold ranking. rewrite (SortFacts.sort_perm keyed).
  unfold keyed. rewrite map_map. simpl. now rewrite map_id.
Qed.



Lemma top_skill_gaps_ranking :
  top_skill_gaps attempts
  = Val (map (fun k => (k, round2 (mean_gap attempts k))) (firstn 5 ranking)).
Proof.
  unfold top_skill_gaps, sorted_reverse. rewrite GapFacts.collect_gaps_eq.
  unfold Dict.items.
  rewrite (map_py_pure _ (fun it => (mean_value (snd it), it))).
  - cbn [bind]. rewrite map_map. cbn [snd].
    change (map (fun k => (mean_value (gaps attempts k), (k, gaps attempts k)))
              (observed_skills attempts))
      with (map (fun k => (mean_gap attempts k, (k, gaps attempts k)))
              (observed_skills attempts)).
    rewrite <- (map_map (fun k => (mean_gap attempts k, k))
                  (fun e => (fst e, (snd e, gaps attempts (snd e))))).
    fold keyed.
    rewrite (SortFacts.sort_map_snd (fun k => (k, gaps attempts k))).
    rewrite map_map. cbn [snd].
    rewrite <- (map_map snd (fun k => (k, gaps attempts k))).
    fold ranking. rewrite firstn_map.
    rewrite (map_py_pure _ (fun it => (fst it, round2 (mean_value (snd it))))).
    + now rewrite map_map.
    + intros [k gs] Hin. apply in_map_iff in Hin.
      destruct Hin as (k' & [= <- <-] & Hk). unfold gap_entry.
      rewrite mean_Val; [reflexivity|].
      apply GapFacts.gaps_nonempty.
      apply (Permutation_in _ ranking_perm). now apply firstn_In in Hk.
  - intros [k gs] Hin. apply in_map_iff in Hin.
    destruct Hin as (k' & [= <- <-] & Hk). simpl.
    rewrite mean_Val; [reflexivity|]. now apply GapFacts.gaps_nonempty.
Qed.

End GapClaims.

(** Two rankings of the same skills that are both descending and both
    keep tied skills in the same order are equal: the properties stated
    of the ranking determine it. *)
Lemma ranking_unique (attempts : list AssessmentAttempt.t) (l1 l2 : list string) :
  Permutation l1 l2 ->
  StronglySorted (Gaps.not_below attempts) l1 ->
  StronglySorted (Gaps.not_below attempts) l2 ->
  (forall m, Gaps.tied attempts m l1 = Gaps.tied attempts m l2) ->
  l1 = l2.
Proof.
  revert l2. induction l1 as [|a l1 IH]; intros l2 Hp Hs1 Hs2 Ht.
  - apply Permutation_nil in Hp. now subst.
  - destruct l2 as [|b l2].
    { apply Permutation_sym, Permutation_nil in Hp. discriminate. }
    inversion Hs1 as [|? ? Hs1' Ha]; subst.
    inversion Hs2 as [|? ? Hs2' Hb]; subst.
    rewrite Forall_forall in Ha, Hb.
    assert (Hab : (Gaps.mean_gap attempts a == Gaps.mean_gap attempts b)%Q).
    { apply Qle_antisym.
      - assert (Hin : In a (b :: l2))
          by (apply (Permutation_in _ Hp); now left).
        destruct Hin as [->|Hin]; [apply Qle_refl | now apply Hb].
      - assert (Hin : In b (a :: l1))
          by (apply (Permutation_in _ (Permutation_sym Hp)); now left).
        destruct Hin as [->|Hin]; [apply Qle_refl | now apply Ha]. }
    assert (Heq : a = b).
    { specialize (Ht (Gaps.mean_gap attempts a)). unfold Gaps.tied in Ht.
      simpl in Ht.
      rewrite (proj2 (Qeq_bool_iff _ _) (Qeq_refl _)) in Ht.
      rewrite (proj2 (Qeq_bool_iff _ _) (Qeq_sym _ _ Hab)) in Ht.
      now injection Ht. }
    subst b. f_equal. apply IH; try assumption.
    + now apply Permutation_cons_inv in Hp.
    + intros m. specialize (Ht m). unfold Gaps.tied in *. simpl in Ht.
      destruct (Qeq_bool (Gaps.mean_gap attempts a) m);
        [now injection Ht | assumption].
Qed.


(** The example of the specification: B (mean gap 70) before A (20). *)
Example top_skill_gaps_two_attempts :
  AssessmentViewSet.top_skill_gaps Examples.two_attempts
  = Val [("B"%string, round2 70); ("A"%string, round2 20)].
Proof. reflexivity. Qed.

(** Six skills: five are kept, the four tied at 50 in the order A, B, C, E
    of their first observation. *)
Example top_skill_gaps_six_skills :
  AssessmentViewSet.top_skill_gaps Examples.six_skills
  = Val [("F"%string, round2 100); ("A"%string, round2 50);
         ("B"%string, round2 50); ("C"%string, round2 50);
         ("E"%string, round2 50)].
Proof. reflexivity. Qed.

(* ================================================================== *)
(** * Ranks, experience and streaks *)

Module GamificationFacts.

Import Gamification.


Ltac split_leb :=
  repeat match goal with
         | |- context [(?a <=? ?b)%N] => destruct (N.leb_spec a b)
         | H : context [(?a <=? ?b)%N] |- _ => destruct (N.leb_spec a b)
         end.

(** [calculate_rank] always finds a rank: the table starts at 0. *)
Lemma first_reached_Some (xp : N) :
  exists name, first_reached (rev RANKS) xp = Some name.
Proof.
  simpl. split_leb; eauto. lia.
Qed.

(** The rank set by [calculate_rank] is the name of the highest threshold
    of [RANKS] that [total_xp] reaches. *)
Theorem calculate_rank_highest_threshold (self : t) :
  exists threshold,
    In (threshold, rank (calculate_rank self)) RANKS /\
    (threshold <= total_xp self)%N /\
    forall threshold' name,
      In (threshold', name) RANKS -> (threshold' <= total_xp self)%N ->
      (threshold' <= threshold)%N.
Proof.
  unfold calculate_rank. simpl first_reached.
  split_leb; try lia; simpl rank;
    eexists; (split; [simpl; intuition eauto |]); (split; [eassumption|]);
    intros t' name Hin Hle; simpl in Hin;
    repeat (destruct Hin as [[= <- <-]|Hin]; [lia|]); contradiction.
Qed.

(** More experience never gives a rank of a lower threshold. *)
Theorem calculate_rank_monotone (self other : t) :
  (total_xp self <= total_xp other)%N ->
  exists t1 t2,
    threshold_of RANKS (rank (calculate_rank self)) = Some t1 /\
    threshold_of RANKS (rank (calculate_rank other)) = Some t2 /\
    (t1 <= t2)%N.
Proof.
  intros Hle. unfold calculate_rank. simpl first_reached.
  split_leb; try lia; simpl rank;
    (eexists; eexists; split; [reflexivity|]; split; [reflexivity|]; lia).
Qed.

Lemma calculate_rank_monotone_witness :
  exists t1 t2,
    threshold_of RANKS
      (rank (calculate_rank
               {| total_xp := 120; level := 1; rank := ""; current_streak := 0;
                  longest_streak := 0; last_activity_date := None |})) = Some t1 /\
    threshold_of RANKS
      (rank (calculate_rank
               {| total_xp := 2600; level := 1; rank := ""; current_streak := 0;
                  longest_streak := 0; last_activity_date := None |})) = Some t2 /\
    (t1 <= t2)%N.
Proof.
  apply (calculate_rank_monotone
           {| total_xp := 120; level := 1; rank := ""; current_streak := 0;
              longest_streak := 0; last_activity_date := None |}
           {| total_xp := 2600; level := 1; rank := ""; current_streak := 0;
              longest_streak := 0; last_activity_date := None |}).
  simpl. lia.
Defined.

(** What [add_xp] does to each field. *)
Lemma add_xp_effect (self : t) (amount : N) :
  consistent (fst (add_xp self amount)) /\
  snd (add_xp self amount) = (total_xp self + amount)%N /\
  total_xp (fst (add_xp self amount)) = (total_xp self + amount)%N /\
  current_streak (fst (add_xp self amount)) = current_streak self /\
  longest_streak (fst (add_xp self amount)) = longest_streak self /\
  last_activity_date (fst (add_xp self amount)) = last_activity_date self.
Proof.
  unfold add_xp, calculate_rank, calculate_level, consistent. cbn [total_xp].
  destruct (first_reached_Some (total_xp self + amount)) as [name Hn].
  rewrite Hn.
  cbn [fst snd total_xp level rank current_streak longest_streak
       last_activity_date].
  repeat split. exact Hn.
Qed.

(** Whatever level and rank the record held before, [add_xp] leaves a
    level and a rank that agree with the new [total_xp], returns that
    total and does not touch the streak. *)
Theorem add_xp_consistent (self : t) (amount : N) :
  let r := add_xp self amount in
  consistent (fst r) /\
  snd r = total_xp (fst r) /\
  total_xp (fst r) = (total_xp self + amount)%N /\
  current_streak (fst r) = current_streak self /\
  longest_streak (fst r) = longest_streak self /\
  last_activity_date (fst r) = last_activity_date self.
Proof.
  destruct (add_xp_effect self amount) as (Hc & Hs & Ht & H1 & H2 & H3).
  cbv zeta. rewrite Ht. auto 10.
Qed.

(** Two additions of experience amount to one addition of their sum. *)
Theorem add_xp_add (self : t) (a b : N) :
  add_xp (fst (add_xp self a)) b = add_xp self (a + b).
Proof.
  unfold add_xp, calculate_rank, calculate_level. cbn [total_xp].
  destruct (first_reached_Some (total_xp self + a)) as [n1 H1].
  rewrite H1. cbn [fst total_xp level rank current_streak longest_streak
                   last_activity_date].
  rewrite <- N.add_assoc.
  destruct (first_reached_Some (total_xp self + (a + b))) as [n2 H2].
  rewrite H2. reflexivity.
Qed.





Lemma round_half_even_nonneg (q : Q) :
  (0 <= q)%Q -> (0 <= round_half_even q)%Z.
Proof.
  intros Hq. destruct (PercentFacts.round_half_even_spec q) as [H _].
  apply Qabs_Qle_condition in H. destruct H as [H _].
  assert (Hz : (inject_Z (-1) < inject_Z (round_half_even q))%Q).
  { change (inject_Z (-1)) with (-1)%Q. lra. }
  rewrite <- Zlt_Qlt in Hz. lia.
Qed.

Lemma py_min_le (a b : Q) : (py_min a b <= a)%Q /\ (py_min a b <= b)%Q.
Proof.
  unfold py_min. destruct (Qle_bool a b) eqn:E.
  - apply Qle_bool_iff in E. split; [apply Qle_refl | exact E].
  - split; [|apply Qle_refl]. apply Qlt_le_weak, Qnot_le_lt.
    intros H. apply Qle_bool_iff in H. congruence.
Qed.

Lemma py_min_nonneg (a b : Q) : (0 <= a)%Q -> (0 <= b)%Q -> (0 <= py_min a b)%Q.
Proof. unfold py_min. destruct (Qle_bool a b); auto. Qed.

(** [get_level_progress] never divides by zero and never exceeds 100; it
    is not negative when the level agrees with the experience. *)
Theorem get_level_progress_range (obj : t) :
  exists p,
    get_level_progress obj = Val p /\ (p <= 100)%Q /\
    (level obj = UserGamification.level_of (total_xp obj) -> (0 <= p)%Q).
Proof.
  unfold get_level_progress.
  set (range := (level obj ^ 2 * 100 - (level obj - 1) ^ 2 * 100)%Z).
  set (progress := (Z.of_N (total_xp obj) - (level obj - 1) ^ 2 * 100)%Z).
  destruct (Z.ltb_spec 0 range) as [Hr|Hr].
  - destruct (Z.eqb_spec range 0) as [H0|_]; [lia|].
    eexists. split; [reflexivity|]. split; [apply py_min_le|].
    intros Hl. apply py_min_nonneg; [discriminate|].
    unfold round1. apply Qle_shift_div_l; [reflexivity|]. rewrite Qmult_0_l.
    change 0%Q with (inject_Z 0). rewrite <- Zle_Qle.
    apply round_half_even_nonneg.
    assert (Hp : (0 <= progress)%Z).
    { unfold progress. rewrite Hl.
      destruct (level_of_bounds (total_xp obj)) as (_ & A2 & _).
      revert A2. generalize (UserGamification.level_of (total_xp obj)).
      intros l A2. replace ((l - 1) ^ 2 * 100)%Z
        with (100 * ((l - 1) * (l - 1)))%Z by ring. lia. }
    repeat apply Qmult_le_0_compat; try discriminate.
    + change 0%Q with (inject_Z 0). now rewrite <- Zle_Qle.
    + apply Qinv_le_0_compat. change 0%Q with (inject_Z 0).
      rewrite <- Zle_Qle. lia.
  - exists 100%Q. split; [reflexivity|]. split; [apply Qle_refl | discriminate].
Qed.

Lemma get_level_progress_range_witness :
  exists p,
    get_level_progress
      {| total_xp := 250; level := 2; rank := "Beginner"; current_streak := 0;
         longest_streak := 0; last_activity_date := None |} = Val p /\
    (0 <= p <= 100)%Q.
Proof.
  destruct (get_level_progress_range
              {| total_xp := 250; level := 2; rank := "Beginner";
                 current_streak := 0; longest_streak := 0;
                 last_activity_date := None |}) as (p & Hp & Hle & Hge).
  exists p. split; [exact Hp|]. split; [apply Hge; reflexivity | exact Hle].
Defined.

(** *** Streaks *)

(** A second [update_streak] on the same day changes nothing and returns
    the same streak. *)
Theorem update_streak_same_day (today : Z) (self : t) :
  update_streak today (fst (update_streak today self))
  = update_streak today self.
Proof.
  unfold update_streak. cbn [fst last_activity_date current_streak
    longest_streak total_xp level rank].
  rewrite Z.eqb_refl. f_equal. f_equal. lia.
Qed.

Lemma update_streak_ok (today : Z) (self : t) :
  streak_ok self ->
  streak_ok (fst (update_streak today self)) /\
  (longest_streak self <= longest_streak (fst (update_streak today self)))%N.
Proof.
  unfold streak_ok, update_streak. simpl.
  destruct (last_activity_date self) as [d|]; intros H; [|lia].
  destruct (d =? today)%Z; [lia|]. destruct (d =? today - 1)%Z; lia.
Qed.

(** Starting from a record that satisfies it (a new record does), every
    sequence of [update_streak] calls keeps 1 <= current_streak <=
    longest_streak once a day is recorded, and never lowers
    [longest_streak]. *)
Theorem streak_invariant (days : list Z) (self : t) :
  streak_ok self ->
  streak_ok (active_on days self) /\
  (longest_streak self <= longest_streak (active_on days self))%N.
Proof.
  unfold active_on. revert self.
  induction days as [|day days IH]; intros self H; simpl;
    [split; [exact H | apply N.le_refl]|].
  destruct (update_streak_ok day self H) as [H1 H2].
  destruct (IH _ H1) as [H3 H4].
  split; [exact H3 | eapply N.le_trans; [exact H2 | exact H4]].
Qed.

Lemma streak_invariant_witness :
  streak_ok
    (active_on [10; 11; 11; 14]%Z
       {| total_xp := 0; level := 1; rank := "Novice"; current_streak := 0;
          longest_streak := 0; last_activity_date := None |}).
Proof.
  apply (@streak_invariant [10; 11; 11; 14]%Z
           {| total_xp := 0; level := 1; rank := "Novice"; current_streak := 0;
              longest_streak := 0; last_activity_date := None |}).
  exact I.
Defined.

Lemma streak_grows (n : nat) (d : Z) (self : t) :
  last_activity_date self = Some (d - 1)%Z ->
  (current_streak self <= longest_streak self)%N ->
  current_streak (active_on (consecutive d n) self)
  = (current_streak self + N.of_nat n)%N /\
  longest_streak (active_on (consecutive d n) self)
  = N.max (longest_streak self) (current_streak self + N.of_nat n) /\
  (n <> O -> last_activity_date (active_on (consecutive d n) self)
             = Some (d + Z.of_nat n - 1)%Z).
Proof.
  unfold active_on. revert d self.
  induction n as [|n IH]; intros d self Hd Hle.
  - simpl. repeat split; lia.
  - cbn [consecutive fold_left].
    destruct (IH (d + 1)%Z (fst (update_streak d self))) as (H1 & H2 & H3).
    + simpl. f_equal. lia.
    + unfold update_streak. simpl. rewrite Hd.
      destruct (Z.eqb_spec (d - 1) d); [lia|]. rewrite Z.eqb_refl. lia.
    + assert (Hc : current_streak (fst (update_streak d self))
                   = (current_streak self + 1)%N).
      { unfold update_streak. simpl. rewrite Hd.
        destruct (Z.eqb_spec (d - 1) d); [lia|]. now rewrite Z.eqb_refl. }
      assert (Hl : longest_streak (fst (update_streak d self))
                   = N.max (longest_streak self) (current_streak self + 1)).
      { unfold update_streak. simpl. rewrite Hd.
        destruct (Z.eqb_spec (d - 1) d); [lia|]. now rewrite Z.eqb_refl. }
      rewrite H1, H2, Hc, Hl. repeat split; try lia.
      intros _. destruct n as [|n'].
      * simpl. f_equal. lia.
      * rewrite H3 by discriminate. f_equal. lia.
Qed.

(** After a first day, or a day that follows a gap, activity on [n + 1]
    days in a row gives a streak of [n + 1]; the longest streak is then
    the larger of its old value and [n + 1]. *)
Theorem streak_counts_consecutive_days (d : Z) (n : nat) (self : t)
  (Hgap : match last_activity_date self with
          | None => True
          | Some last => last <> d /\ last <> (d - 1)%Z
          end) :
  current_streak (active_on (consecutive d (S n)) self) = N.of_nat (S n) /\
  longest_streak (active_on (consecutive d (S n)) self)
  = N.max (longest_streak self) (N.of_nat (S n)).
Proof.
  assert (H1 : current_streak (fst (update_streak d self)) = 1%N /\
               longest_streak (fst (update_streak d self))
               = N.max (longest_streak self) 1 /\
               last_activity_date (fst (update_streak d self)) = Some d).
  { unfold update_streak. simpl.
    destruct (last_activity_date self) as [last|]; [|auto].
    destruct Hgap as [Ha Hb].
    destruct (Z.eqb_spec last d); [contradiction|].
    destruct (Z.eqb_spec last (d - 1)); [contradiction | auto]. }
  destruct H1 as (Hc & Hl & Hd).
  change (active_on (consecutive d (S n)) self)
    with (active_on (consecutive (d + 1) n) (fst (update_streak d self))).
  destruct (@streak_grows n (d + 1)%Z (fst (update_streak d self)))
    as (A & B & _).
  - rewrite Hd. f_equal. lia.
  - rewrite Hc, Hl. lia.
  - rewrite A, B, Hc, Hl. split; lia.
Qed.

Lemma streak_counts_consecutive_days_witness :
  current_streak
    (active_on (consecutive 100 (S 6))
       {| total_xp := 0; level := 1; rank := "Novice"; current_streak := 4;
          longest_streak := 5; last_activity_date := Some 90%Z |})
  = 7%N.
Proof.
  apply (@streak_counts_consecutive_days 100 6
           {| total_xp := 0; level := 1; rank := "Novice"; current_streak := 4;
              longest_streak := 5; last_activity_date := Some 90%Z |}).
  simpl. split; discriminate.
Defined.

End GamificationFacts.

(* ================================================================== *)
(** * Achievements and the streak endpoint *)

Module AchievementFacts.

Import UserAchievement.

Lemma update_progress_step (now : Z) (self : t) (gam : Gamification.t) (inc : N) :
  let r := update_progress now self gam inc in
  achievement (fst (fst r)) = achievement self /\
  (unlocked self = true -> r = (self, gam, false)) /\
  (unlocked self = false ->
   snd r = unlocked (fst (fst r)) /\
   Gamification.total_xp (snd (fst r))
   = (Gamification.total_xp gam
      + (if unlocked (fst (fst r))
         then Achievement.xp_reward (achievement self) else 0))%N).
Proof.
  unfold update_progress. destruct (unlocked self) eqn:E; cbn [fst snd].
  - split; [reflexivity|]. split; [reflexivity | discriminate].
  - destruct (_ <=? _)%N; cbn [fst snd achievement unlocked].
    + split; [reflexivity|]. split; [discriminate|]. intros _.
      split; [reflexivity|].
      destruct (GamificationFacts.add_xp_effect gam
                  (Achievement.xp_reward (achievement self)))
        as (_ & _ & Ht & _). exact Ht.
    + split; [reflexivity|]. split; [discriminate|]. intros _.
      split; [reflexivity | lia].
Qed.

(** Over any sequence of [update_progress] calls the achievement's
    experience is awarded at most once: a row that is already unlocked
    is left as it is, together with the user's record, and a locked row
    gains [xp_reward] exactly if it ends unlocked. *)
Theorem update_progress_awards_once (now : Z) (increments : list N)
  (self : t) (gam : Gamification.t) :
  let r := update_all now increments (self, gam) in
  achievement (fst r) = achievement self /\
  (unlocked self = true -> r = (self, gam)) /\
  (unlocked self = false ->
   Gamification.total_xp (snd r)
   = (Gamification.total_xp gam
      + (if unlocked (fst r)
         then Achievement.xp_reward (achievement self) else 0))%N).
Proof.
  unfold update_all. revert self gam.
  induction increments as [|inc incs IH]; intros self gam; cbn [fold_left].
  - cbn [fst snd]. repeat split. intros ->. lia.
  - destruct (update_progress_step now self gam inc) as (Ha & Hu & Hl).
    cbn [fst snd].
    set (r1 := update_progress now self gam inc) in *.
    destruct r1 as [[self1 gam1] b]. cbn [fst snd] in *.
    destruct (IH self1 gam1) as (Ia & Iu & Il). cbn zeta in *.
    split; [now rewrite Ia|]. split.
    + intros Hs. specialize (Hu Hs). injection Hu as -> -> _.
      now apply Iu.
    + intros Hs. destruct (Hl Hs) as [_ Hx].
      destruct (unlocked self1) eqn:E1.
      * rewrite (Iu eq_refl). cbn [fst snd]. rewrite E1. exact Hx.
      * rewrite (Il eq_refl), Hx, Ha.
        destruct (unlocked (fst (fold_left _ incs (self1, gam1)))); lia.
Qed.

Lemma update_progress_awards_once_witness :
  Gamification.total_xp
    (snd (update_all 0 [1; 1; 1; 5]%N
            (MoreExamples.row MoreExamples.dedicated_learner 2,
             MoreExamples.learner)))
  = 800%N.
Proof.
  pose proof (update_progress_awards_once 0 [1; 1; 1; 5]%N
                (MoreExamples.row MoreExamples.dedicated_learner 2)
                MoreExamples.learner) as H.
  cbv zeta in H. destruct H as (_ & _ & H).
  rewrite (H eq_refl). reflexivity.
Defined.

End AchievementFacts.

Module StreakViewFacts.

Import UpdateStreakView.

(** No growth, no bonus; a streak that grew earns between 5 and 50, and
    a longer streak never earns less. *)
Theorem streak_bonus_monotone (old_streak n1 n2 : N) :
  (streak_bonus old_streak n1 = 0 <-> n1 <= old_streak)%N /\
  (streak_bonus old_streak n1 <= 50)%N /\
  (old_streak < n1 -> n1 <= n2 ->
   5 <= streak_bonus old_streak n1 <= streak_bonus old_streak n2)%N.
Proof.
  unfold streak_bonus.
  destruct (N.ltb_spec old_streak n1), (N.ltb_spec old_streak n2);
    repeat match goal with
           | |- context [(?a <=? ?b)%N] => destruct (N.leb_spec a b)
           end; lia.
Qed.

Lemma streak_bonus_monotone_witness :
  (5 <= streak_bonus 6 7 <= streak_bonus 6 30)%N.
Proof.
  apply (streak_bonus_monotone 6 7 30); lia.
Defined.

(** Checking achievements adds experience only: the streak fields of
    the user's record stay as they are. *)
Lemma check_one_streak (now : Z) (streak : N) (state : Rows.t * Gamification.t)
  (a : Achievement.t) :
  let r := check_one now streak state a in
  Gamification.current_streak (snd r) = Gamification.current_streak (snd state) /\
  Gamification.longest_streak (snd r) = Gamification.longest_streak (snd state) /\
  Gamification.last_activity_date (snd r)
  = Gamification.last_activity_date (snd state).
Proof.
  destruct state as [rows gam]. unfold check_one.
  destruct (Rows.get_or_create rows a) as [ua rows1].
  destruct (_ && _)%bool; cbn [snd]; [|auto].
  destruct (GamificationFacts.add_xp_effect gam (Achievement.xp_reward a))
    as (_ & _ & _ & H1 & H2 & H3). auto.
Qed.

Lemma check_streak (now : Z) (achievements : list Achievement.t)
  (state : Rows.t * Gamification.t) (streak : N) :
  let r := _check_streak_achievements now achievements state streak in
  Gamification.current_streak (snd r) = Gamification.current_streak (snd state) /\
  Gamification.longest_streak (snd r) = Gamification.longest_streak (snd state) /\
  Gamification.last_activity_date (snd r)
  = Gamification.last_activity_date (snd state).
Proof.
  unfold _check_streak_achievements.
  generalize (streak_achievements achievements). intros l. revert state.
  induction l as [|a l IH]; intros state; cbn [fold_left]; [auto|].
  destruct (IH (check_one now streak state a)) as (A & B & C).
  destruct (check_one_streak now streak state a) as (A' & B' & C').
  cbn zeta in *. rewrite A, B, C. auto.
Qed.

Lemma update_streak_fixed (today : Z) (g : Gamification.t) :
  Gamification.last_activity_date g = Some today ->
  (Gamification.current_streak g <= Gamification.longest_streak g)%N ->
  Gamification.update_streak today g = (g, Gamification.current_streak g).
Proof.
  destruct g as [xp lv rk cur lon last]. simpl. intros -> Hle.
  unfold Gamification.update_streak. simpl. rewrite Z.eqb_refl.
  rewrite N.max_l by exact Hle. reflexivity.
Qed.

(** The record [post] leaves: the day is recorded and the streak it
    reports is the current one, at most the longest. *)
Lemma post_state (today now : Z) (achievements : list Achievement.t)
  (state : Rows.t * Gamification.t) :
  let first := post today now achievements state in
  Gamification.last_activity_date (snd (fst first)) = Some today /\
  Gamification.current_streak (snd (fst first)) = current_streak (snd first) /\
  (Gamification.current_streak (snd (fst first))
   <= Gamification.longest_streak (snd (fst first)))%N.
Proof.
  destruct state as [rows gam]. unfold post.
  assert (Hu : Gamification.last_activity_date
                 (fst (Gamification.update_streak today gam)) = Some today /\
               Gamification.current_streak
                 (fst (Gamification.update_streak today gam))
               = snd (Gamification.update_streak today gam) /\
               (snd (Gamification.update_streak today gam)
                <= Gamification.longest_streak
                     (fst (Gamification.update_streak today gam)))%N).
  { unfold Gamification.update_streak. cbn [fst snd
      Gamification.last_activity_date Gamification.current_streak
      Gamification.longest_streak]. repeat split. lia. }
  destruct (Gamification.update_streak today gam) as [g1 new].
  cbn [fst snd] in Hu. destruct Hu as (U1 & U2 & U3).
  destruct (Gamification.current_streak gam <? new)%N; cbn [fst snd current_streak].
  - destruct (check_streak now achievements
                (rows, fst (Gamification.add_xp g1
                              (streak_bonus (Gamification.current_streak gam) new)))
                new) as (A & B & C).
    destruct (GamificationFacts.add_xp_effect g1
                (streak_bonus (Gamification.current_streak gam) new))
      as (_ & _ & _ & H1 & H2 & H3).
    cbn zeta in *. cbn [snd] in A, B, C.
    rewrite A, B, C, H1, H2, H3, U1, U2. repeat split. exact U3.
  - rewrite U1, U2. repeat split. exact U3.
Qed.

(** *** The rows of achievements *)

Lemma find_save_same (row r0 : UserAchievement.t) (rows : Rows.t) :
  find (Rows.is_for (Achievement.id (UserAchievement.achievement row))) rows
  = Some r0 ->
  find (Rows.is_for (Achievement.id (UserAchievement.achievement row)))
    (Rows.save row rows) = Some row.
Proof.
  induction rows as [|r rows IH]; simpl; [discriminate|].
  destruct (Rows.is_for _ r) eqn:E; simpl.
  - intros _. unfold Rows.is_for. now rewrite N.eqb_refl.
  - rewrite E. exact IH.
Qed.

Lemma find_save_other (j : N) (row : UserAchievement.t) (rows : Rows.t) :
  j <> Achievement.id (UserAchievement.achievement row) ->
  find (Rows.is_for j) (Rows.save row rows) = find (Rows.is_for j) rows.
Proof.
  intros Hj. induction rows as [|r rows IH]; simpl; [reflexivity|].
  destruct (Rows.is_for (Achievement.id (UserAchievement.achievement row)) r)
    eqn:E; simpl.
  - unfold Rows.is_for in *. apply N.eqb_eq in E.
    destruct (N.eqb_spec (Achievement.id (UserAchievement.achievement row)) j);
      [congruence|].
    destruct (N.eqb_spec (Achievement.id (UserAchievement.achievement r)) j);
      [congruence | reflexivity].
  - now rewrite IH.
Qed.

Lemma find_app_one {A : Type} (f : A -> bool) (l : list A) (a : A) :
  find f (l ++ [a])
  = match find f l with
    | Some b => Some b
    | None => if f a then Some a else None
    end.
Proof.
  induction l as [|b l IH]; simpl; [reflexivity|].
  destruct (f b); [reflexivity | exact IH].
Qed.

(** What one turn of the loop does to the row of its achievement. *)
Lemma check_one_cases (now : Z) (streak : N) (rows : Rows.t)
  (gam : Gamification.t) (a : Achievement.t) :
  let r := check_one now streak (rows, gam) a in
  (forall j, j <> Achievement.id a ->
     forall row, find (Rows.is_for j) rows = Some row ->
                 find (Rows.is_for j) (fst r) = Some row) /\
  (exists row, find (Rows.is_for (Achievement.id a)) (fst r) = Some row /\
     (UserAchievement.unlocked row = true \/
      (streak < Achievement.requirement a)%N) /\
     (forall row0, find (Rows.is_for (Achievement.id a)) rows = Some row0 ->
        UserAchievement.unlocked row0 = true -> row = row0)) /\
  (settled streak rows a -> r = (rows, gam)).
Proof.
  unfold check_one, Rows.get_or_create.
  destruct (find (Rows.is_for (Achievement.id a)) rows) as [r0|] eqn:Ef.
  - assert (Hid : Achievement.id (UserAchievement.achievement r0)
                  = Achievement.id a).
    { apply find_some in Ef. destruct Ef as [_ E]. now apply N.eqb_eq in E. }
    destruct (UserAchievement.unlocked r0) eqn:Eu; cbn [negb andb fst].
    + split; [auto|]. split; [|reflexivity]. exists r0.
      split; [exact Ef|]. split; [now left|]. now intros row0 [= <-].
    + destruct (N.leb_spec (Achievement.requirement a) streak) as [Hle|Hlt];
        cbn [fst].
      * split; [|split].
        -- intros j Hj row Hrow. rewrite find_save_other; [exact Hrow|].
           cbn. congruence.
        -- eexists. split.
           ++ rewrite <- Hid.
              apply (@find_save_same
                       {| UserAchievement.achievement :=
                            UserAchievement.achievement r0;
                          UserAchievement.progress := streak;
                          UserAchievement.unlocked := true;
                          UserAchievement.unlocked_at := Some now |} r0).
              cbn. now rewrite Hid.
           ++ split; [now left|]. intros row0 [= <-] Hu. congruence.
        -- intros (row & Hrow & [Hu|Hlt]); [|lia].
           rewrite Ef in Hrow. injection Hrow as <-. congruence.
      * split; [auto|]. split; [|reflexivity].
        exists r0. split; [exact Ef|]. split; [now right|].
        now intros row0 [= <-].
  - cbn [UserAchievement.unlocked negb andb fst].
    set (created := {| UserAchievement.achievement := a;
                       UserAchievement.progress := 0;
                       UserAchievement.unlocked := false;
                       UserAchievement.unlocked_at := None |}).
    assert (Hc : find (Rows.is_for (Achievement.id a)) (rows ++ [created])
                 = Some created).
    { rewrite find_app_one, Ef. unfold Rows.is_for. cbn.
      now rewrite N.eqb_refl. }
    destruct (N.leb_spec (Achievement.requirement a) streak) as [Hle|Hlt];
      cbn [fst].
    + split; [|split].
      * intros j Hj row Hrow. rewrite find_save_other by (cbn; congruence).
        now rewrite find_app_one, Hrow.
      * eexists. split.
        -- apply (@find_save_same
                    {| UserAchievement.achievement := a;
                       UserAchievement.progress := streak;
                       UserAchievement.unlocked := true;
                       UserAchievement.unlocked_at := Some now |} created).
           exact Hc.
        -- split; [now left | now intros row0 H].
      * intros (row & Hrow & _). congruence.
    + split; [|split].
      * intros j Hj row Hrow. now rewrite find_app_one, Hrow.
      * exists created. split; [exact Hc|].
        split; [now right | now intros row0 H].
      * intros (row & Hrow & _). congruence.
Qed.

Lemma check_one_settles (now : Z) (streak : N) (state : Rows.t * Gamification.t)
  (a b : Achievement.t) :
  (b = a \/ settled streak (fst state) b) ->
  settled streak (fst (check_one now streak state a)) b.
Proof.
  destruct state as [rows gam]. cbn [fst].
  destruct (check_one_cases now streak rows gam a) as (Hother & Hsame & _).
  cbn zeta in *. destruct Hsame as (row & Hrow & Hdone & Hkeep).
  unfold settled. intros [->|(rb & Hb & Hs)].
  - exists row. auto.
  - destruct (N.eq_dec (Achievement.id b) (Achievement.id a)) as [E|E].
    + rewrite E in *. exists row. split; [exact Hrow|].
      destruct Hs as [Hu|Hlt]; [|now right].
      left. now rewrite (Hkeep rb Hb Hu).
    + exists rb. split; [|exact Hs]. now apply Hother.
Qed.

Lemma check_all_settles (now : Z) (streak : N) (l : list Achievement.t)
  (state : Rows.t * Gamification.t) (b : Achievement.t) :
  (In b l \/ settled streak (fst state) b) ->
  settled streak (fst (fold_left (check_one now streak) l state)) b.
Proof.
  revert state. induction l as [|a l IH]; intros state H; cbn [fold_left].
  - destruct H as [[]|H]. exact H.
  - apply IH. destruct H as [[->|H]|H]; [right|now left|right];
      apply check_one_settles; auto.
Qed.

Lemma check_all_settled (now : Z) (streak : N) (l : list Achievement.t)
  (state : Rows.t * Gamification.t) :
  (forall b, In b l -> settled streak (fst state) b) ->
  fold_left (check_one now streak) l state = state.
Proof.
  induction l as [|a l IH]; intros H; cbn [fold_left]; [reflexivity|].
  destruct state as [rows gam].
  destruct (check_one_cases now streak rows gam a) as (_ & _ & Hid).
  cbn zeta in Hid. rewrite Hid by (apply H; now left).
  apply IH. intros b Hb. apply H. now right.
Qed.

(** Running [_check_streak_achievements] a second time with the same
    streak changes nothing: no row is touched and no experience is
    awarded twice. *)
Theorem check_streak_achievements_once (now now' : Z)
  (achievements : list Achievement.t) (state : Rows.t * Gamification.t)
  (streak : N) :
  _check_streak_achievements now' achievements
    (_check_streak_achievements now achievements state streak) streak
  = _check_streak_achievements now achievements state streak.
Proof.
  unfold _check_streak_achievements.
  apply check_all_settled. intros b Hb. apply check_all_settles. now left.
Qed.

(** After [_check_streak_achievements] every active streak achievement
    whose requirement the streak reaches has an unlocked row. *)
Theorem check_streak_achievements_unlocks (now : Z)
  (achievements : list Achievement.t) (state : Rows.t * Gamification.t)
  (streak : N) (a : Achievement.t)
  (Hin : In a achievements)
  (Htype : Achievement.type a = "STREAK"%string)
  (Hactive : Achievement.is_active a = true)
  (Hreq : (Achievement.requirement a <= streak)%N) :
  exists row,
    find (Rows.is_for (Achievement.id a))
      (fst (_check_streak_achievements now achievements state streak))
    = Some row /\
    UserAchievement.unlocked row = true.
Proof.
  assert (Hs : settled streak
                 (fst (_check_streak_achievements now achievements state streak)) a).
  { apply check_all_settles. left. unfold streak_achievements.
    apply filter_In. split; [exact Hin|]. now rewrite Htype, Hactive. }
  destruct Hs as (row & Hrow & [Hu|Hlt]); [eauto | lia].
Qed.

Lemma check_streak_achievements_unlocks_witness :
  exists row,
    find (Rows.is_for 6)
      (fst (_check_streak_achievements 0
              [MoreExamples.dedicated_learner; MoreExamples.week_warrior]
              ([], MoreExamples.learner) 7))
    = Some row /\
    UserAchievement.unlocked row = true.
Proof.
  apply (@check_streak_achievements_unlocks 0
           [MoreExamples.dedicated_learner; MoreExamples.week_warrior]
           ([], MoreExamples.learner) 7 MoreExamples.week_warrior).
  - right. left. reflexivity.
  - reflexivity.
  - reflexivity.
  - simpl. lia.
Defined.

(** A second [post] on the same day changes neither the user's record
    nor the achievement rows and reports a bonus of 0. *)
Theorem post_same_day (today now now' : Z) (achievements : list Achievement.t)
  (state : Rows.t * Gamification.t) :
  let first := post today now achievements state in
  post today now' achievements (fst first)
  = (fst first,
     {| current_streak := current_streak (snd first);
        longest_streak := longest_streak (snd first);
        streak_bonus_xp := 0 |}).
Proof.
  intros first.
  destruct (post_state today now achievements state) as (H1 & H2 & H3).
  fold first in H1, H2, H3.
  assert (Hl : longest_streak (snd first)
               = Gamification.longest_streak (snd (fst first))).
  { unfold first, post. destruct state as [rows gam].
    destruct (Gamification.update_streak today gam) as [g1 new].
    reflexivity. }
  rewrite Hl, <- H2.
  destruct (fst first) as [rows1 g1]. cbn [snd] in *.
  unfold post. rewrite (@update_streak_fixed today g1 H1 H3).
  unfold streak_bonus. rewrite N.ltb_irrefl. reflexivity.
Qed.

(** Coming back after a gap, with a streak of at least 1 on record,
    resets the streak to 1 and earns nothing: no bonus, no experience,
    no achievement row touched. *)
Theorem post_after_gap (today now last : Z) (achievements : list Achievement.t)
  (rows : Rows.t) (gam : Gamification.t)
  (Hlast : Gamification.last_activity_date gam = Some last)
  (Hgap : last <> today /\ last <> (today - 1)%Z)
  (Hold : (1 <= Gamification.current_streak gam)%N) :
  let r := post today now achievements (rows, gam) in
  current_streak (snd r) = 1%N /\ streak_bonus_xp (snd r) = 0%N /\
  fst (fst r) = rows /\
  Gamification.total_xp (snd (fst r)) = Gamification.total_xp gam /\
  Gamification.current_streak (snd (fst r)) = 1%N.
Proof.
  unfold post, Gamification.update_streak. rewrite Hlast.
  destruct Hgap as [Ha Hb].
  destruct (Z.eqb_spec last today); [contradiction|].
  destruct (Z.eqb_spec last (today - 1)); [contradiction|].
  unfold streak_bonus.
  destruct (N.ltb_spec (Gamification.current_streak gam) 1); [lia|].
  cbn. auto.
Qed.

Lemma post_after_gap_witness :
  streak_bonus_xp
    (snd (post 20 0 []
            ([], {| Gamification.total_xp := 300; Gamification.level := 2;
                    Gamification.rank := "Beginner";
                    Gamification.current_streak := 9;
                    Gamification.longest_streak := 9;
                    Gamification.last_activity_date := Some 17%Z |})))
  = 0%N.
Proof.
  apply (@post_after_gap 20 0 17 [] []
           {| Gamification.total_xp := 300; Gamification.level := 2;
              Gamification.rank := "Beginner";
              Gamification.current_streak := 9;
              Gamification.longest_streak := 9;
              Gamification.last_activity_date := Some 17%Z |}).
  - reflexivity.
  - split; discriminate.
  - simpl; lia.
Defined.

End StreakViewFacts.

Module AchievementsViewFacts.

Import UserAchievementsView.

Lemma progress_percentage_range (p r : N) :
  (0 <= py_min 100 (round1 (QN p / QN r * 100)) <= 100)%Q.
Proof.
  split; [|apply GamificationFacts.py_min_le].
  apply GamificationFacts.py_min_nonneg; [discriminate|].
  unfold round1. apply Qle_shift_div_l; [reflexivity|]. rewrite Qmult_0_l.
  change 0%Q with (inject_Z 0). rewrite <- Zle_Qle.
  apply GamificationFacts.round_half_even_nonneg.
  repeat apply Qmult_le_0_compat; try discriminate.
  - apply PercentFacts.QN_nonneg.
  - apply Qinv_le_0_compat, PercentFacts.QN_nonneg.
Qed.

(** One turn of the loop of [get]. *)
Lemma classify_cases (rows : Rows.t) (r : result) (a : Achievement.t) :
  (divides_by_zero rows a = true /\ classify rows r a = Raise ZeroDivisionError) \/
  (divides_by_zero rows a = false /\
   exists r',
     classify rows r a = Val r' /\
     map fst (unlocked r')
     = map fst (unlocked r) ++ filter (is_unlocked rows) [a] /\
     map achievement (in_progress r')
     = map achievement (in_progress r) ++ filter (is_in_progress rows) [a] /\
     locked r' = locked r ++ filter (is_locked rows) [a] /\
     (Forall (fun d => (0 <= progress_percentage d <= 100)%Q) (in_progress r) ->
      Forall (fun d => (0 <= progress_percentage d <= 100)%Q) (in_progress r'))).
Proof.
  unfold classify, divides_by_zero, is_locked, is_in_progress, is_unlocked.
  cbn [filter]. destruct (lookup rows (Achievement.id a)) as [ua|].
  - destruct (UserAchievement.unlocked ua); cbn [negb andb].
    + right. split; [reflexivity|]. eexists. split; [reflexivity|].
      cbn [unlocked in_progress locked]. rewrite map_app, !app_nil_r. auto.
    + destruct (0 <? UserAchievement.progress ua)%N; cbn [negb andb].
      * unfold truediv.
        destruct (N.eqb_spec (Achievement.requirement a) 0) as [E|E].
        -- left. auto.
        -- right. split; [reflexivity|]. eexists. split; [reflexivity|].
           cbn [unlocked in_progress locked bind].
           rewrite map_app, !app_nil_r. repeat split; auto.
           intros H. apply Forall_app. split; [exact H|].
           constructor; [|constructor]. apply progress_percentage_range.
      * right. split; [reflexivity|]. eexists. split; [reflexivity|].
        cbn [unlocked in_progress locked]. rewrite !app_nil_r. auto.
  - right. split; [reflexivity|]. eexists. split; [reflexivity|].
    cbn [unlocked in_progress locked negb andb]. rewrite !app_nil_r. auto.
Qed.

Lemma loop_cases (rows : Rows.t) (l : list Achievement.t) (r : result) :
  (existsb (divides_by_zero rows) l = true /\
   for_each (classify rows) l r = Raise ZeroDivisionError) \/
  (existsb (divides_by_zero rows) l = false /\
   exists r',
     for_each (classify rows) l r = Val r' /\
     map fst (unlocked r')
     = map fst (unlocked r) ++ filter (is_unlocked rows) l /\
     map achievement (in_progress r')
     = map achievement (in_progress r) ++ filter (is_in_progress rows) l /\
     locked r' = locked r ++ filter (is_locked rows) l /\
     (Forall (fun d => (0 <= progress_percentage d <= 100)%Q) (in_progress r) ->
      Forall (fun d => (0 <= progress_percentage d <= 100)%Q) (in_progress r'))).
Proof.
  revert r. induction l as [|a l IH]; intros r.
  - right. split; [reflexivity|]. exists r. cbn. rewrite !app_nil_r. auto.
  - cbn [for_each existsb].
    destruct (classify_cases rows r a)
      as [[Hz Hc]|(Hz & r1 & Hc & H1 & H2 & H3 & H4)]; rewrite Hz, Hc.
    + left. auto.
    + cbn [bind orb].
      destruct (IH r1) as [[Ez Er]|(Ez & r2 & Er & I1 & I2 & I3 & I4)].
      * left. auto.
      * right. split; [exact Ez|]. exists r2. split; [exact Er|].
        rewrite I1, I2, I3, H1, H2, H3, <- !app_assoc.
        change (a :: l) with ([a] ++ l). rewrite !filter_app.
        repeat split. auto.
Qed.

(** When [UserAchievementsView.get] returns, the three lists hold the
    active achievements, each in exactly one list and in their order:
    the unlocked ones, those in progress and the others; the lengths add
    up to the number of active achievements and every progress
    percentage lies between 0 and 100. *)
Theorem get_partition (achievements : list Achievement.t) (rows : Rows.t)
  (r : result) (Hr : get achievements rows = Val r) :
  let active := filter Achievement.is_active achievements in
  map fst (unlocked r) = filter (is_unlocked rows) active /\
  map achievement (in_progress r) = filter (is_in_progress rows) active /\
  locked r = filter (is_locked rows) active /\
  (List.length (unlocked r) + List.length (in_progress r)
   + List.length (locked r) = List.length active)%nat /\
  Forall (fun d => (0 <= progress_percentage d <= 100)%Q) (in_progress r).
Proof.
  unfold get in Hr. intros active. fold active in Hr.
  destruct (loop_cases rows active
              {| unlocked := []; in_progress := []; locked := [] |})
    as [[_ He]|(_ & r' & Hv & H1 & H2 & H3 & H4)]; [congruence|].
  rewrite Hv in Hr. injection Hr as <-. cbn in H1, H2, H3.
  split; [exact H1|]. split; [exact H2|]. split; [exact H3|].
  split; [|apply H4; constructor].
  rewrite <- (length_map fst (unlocked r')),
          <- (length_map achievement (in_progress r')), H1, H2, H3.
  clear. induction active as [|a l IH]; [reflexivity|].
  unfold is_locked in *. cbn [filter].
  destruct (is_unlocked rows a) eqn:Eu, (is_in_progress rows a) eqn:Ei;
    cbn [negb andb List.length]; try lia.
  exfalso. unfold is_unlocked, is_in_progress in *.
  destruct (lookup rows (Achievement.id a)); [|discriminate].
  rewrite Eu in Ei. discriminate.
Qed.

Lemma get_partition_witness :
  exists r,
    get [MoreExamples.dedicated_learner; MoreExamples.week_warrior]
        [MoreExamples.row MoreExamples.dedicated_learner 2] = Val r /\
    locked r = [MoreExamples.week_warrior] /\
    map achievement (in_progress r) = [MoreExamples.dedicated_learner].
Proof.
  eexists. split; [reflexivity|].
  pose proof (@get_partition
                [MoreExamples.dedicated_learner; MoreExamples.week_warrior]
                [MoreExamples.row MoreExamples.dedicated_learner 2]
                _ eq_refl) as H.
  cbv zeta in H. destruct H as (_ & H2 & H3 & _).
  split; [exact H3 | exact H2].
Defined.

(** [UserAchievementsView.get] raises exactly when some active
    achievement is in progress with a requirement of 0, and what it
    raises then is [ZeroDivisionError]. *)
Theorem get_raises_iff (achievements : list Achievement.t) (rows : Rows.t) :
  (existsb (divides_by_zero rows)
     (filter Achievement.is_active achievements) = true ->
   get achievements rows = Raise ZeroDivisionError) /\
  (existsb (divides_by_zero rows)
     (filter Achievement.is_active achievements) = false ->
   exists r, get achievements rows = Val r).
Proof.
  unfold get.
  destruct (loop_cases rows (filter Achievement.is_active achievements)
              {| unlocked := []; in_progress := []; locked := [] |})
    as [[Hz He]|(Hz & r' & Hv & _)]; rewrite Hz.
  - split; [auto | discriminate].
  - split; [discriminate | eauto].
Qed.

Lemma get_raises_iff_witness :
  get [MoreExamples.dedicated_learner; MoreExamples.free_pass]
      [MoreExamples.row MoreExamples.free_pass 1]
  = Raise ZeroDivisionError.
Proof.
  apply (proj1 (get_raises_iff
                  [MoreExamples.dedicated_learner; MoreExamples.free_pass]
                  [MoreExamples.row MoreExamples.free_pass 1])).
  reflexivity.
Defined.

(** The serializer's [get_progress_percentage] guards the division: it
    returns for every row, 0 when the requirement is 0, and a value
    between 0 and 100. *)
Theorem get_progress_percentage_total (obj : UserAchievement.t) :
  exists p,
    UserAchievement.get_progress_percentage obj = Val p /\
    (0 <= p <= 100)%Q /\
    (Achievement.requirement (UserAchievement.achievement obj) = 0%N -> p = 0%Q).
Proof.
  unfold UserAchievement.get_progress_percentage, truediv.
  destruct (N.ltb_spec 0 (Achievement.requirement
                            (UserAchievement.achievement obj))) as [H|H].
  - destruct (N.eqb_spec (Achievement.requirement
                            (UserAchievement.achievement obj)) 0); [lia|].
    eexists. split; [reflexivity|]. split; [apply progress_percentage_range | lia].
  - exists 0%Q. split; [reflexivity|]. split; [split; discriminate | auto].
Qed.

Lemma get_progress_percentage_total_witness :
  exists p,
    UserAchievement.get_progress_percentage
      (MoreExamples.row MoreExamples.free_pass 1) = Val p /\
    p = 0%Q.
Proof.
  destruct (get_progress_percentage_total
              (MoreExamples.row MoreExamples.free_pass 1)) as (p & Hp & _ & Hz).
  exists p. split; [exact Hp | apply Hz; reflexivity].
Defined.

End AchievementsViewFacts.

(* ================================================================== *)
(** * Recommendations *)

Module RecommendationFacts.

Import CourseRecommendationsView.

Lemma first_by_course_filter (c : N) (l : list recommendation) :
  first_by_course (filter (other_course c) l)
  = filter (other_course c) (first_by_course l).
Proof.
  induction l as [|x l IH]; [reflexivity|].
  cbn [filter first_by_course].
  destruct (other_course c x) eqn:E; cbn [first_by_course].
  - f_equal. rewrite IH, !GapFacts.filter_twice.
    apply filter_ext. intros r. apply andb_comm.
  - rewrite IH, GapFacts.filter_twice. apply filter_ext. intros r.
    unfold other_course in *. apply negb_false_iff, N.eqb_eq in E.
    rewrite E. now destruct (course r =? c)%N.
Qed.

(** The loop, from any point it can reach. *)
Lemma dedupe_spec (limit : Z) (recs : list recommendation) (seen : list N)
  (unique : list recommendation) :
  let m := Z.to_nat (Z.max 1 limit) in
  (List.length unique < m)%nat ->
  dedupe limit recs seen unique
  = unique
    ++ firstn (m - List.length unique)
         (first_by_course
            (filter (fun r => negb (existsb (N.eqb (course r)) seen)) recs)).
Proof.
  intros m. revert seen unique.
  induction recs as [|r rest IH]; intros seen unique Hlen.
  - cbn. now rewrite firstn_nil, app_nil_r.
  - cbn [dedupe filter].
    destruct (existsb (N.eqb (course r)) seen) eqn:Es; cbn [negb].
    + now apply IH.
    + cbn [first_by_course]. rewrite length_app. cbn [List.length].
      destruct (m - List.length unique)%nat as [|k] eqn:Ek; [lia|].
      cbn [firstn].
      destruct (Z.leb_spec limit (Z.of_nat (List.length unique + 1))) as [Hb|Hb].
      * assert (k = 0%nat) by (unfold m in *; lia). subst k.
        now rewrite firstn_O.
      * rewrite IH by (rewrite length_app; cbn; unfold m in *; lia).
        rewrite length_app. cbn [List.length].
        replace (m - (List.length unique + 1))%nat with k by lia.
        rewrite <- app_assoc. cbn [app]. do 3 f_equal.
        rewrite <- first_by_course_filter, GapFacts.filter_twice.
        f_equal. apply filter_ext. intros x. cbn [existsb].
        unfold other_course. rewrite (N.eqb_sym (course x) (course r)).
        rewrite negb_orb. apply andb_comm.
Qed.

(** The loop keeps the first entry of every course of the sorted list
    and stops at [limit] entries, but never before the first one. *)
Theorem unique_recommendations_spec (limit : Z)
  (recommendations : list recommendation) :
  unique_recommendations limit recommendations
  = firstn (Z.to_nat (Z.max 1 limit))
      (first_by_course (by_score recommendations)).
Proof.
  unfold unique_recommendations. rewrite dedupe_spec by (cbn; lia).
  cbn [app List.length]. rewrite Nat.sub_0_r. do 2 f_equal.
  apply filter_true.
Qed.

(** Dropping entries leaves the courses distinct. *)
Lemma filter_courses_NoDup (keep : recommendation -> bool)
  (recs : list recommendation) (Hrecs : NoDup (map course recs)) :
  NoDup (map course (filter keep recs)).
Proof.
  induction recs as [|r recs IH]; cbn in *; [constructor|].
  inversion Hrecs as [|? ? Hn Hd]; subst.
  destruct (keep r); cbn; [|auto]. constructor; [|auto].
  rewrite in_map_iff in *. intros (x & Hx & Hin). apply Hn.
  exists x. split; [exact Hx|]. now apply filter_In in Hin.
Qed.

Lemma StronglySorted_filter {A : Type} (R : A -> A -> Prop) (p : A -> bool)
  (l : list A) :
  StronglySorted R l -> StronglySorted R (filter p l).
Proof.
  induction 1 as [|a l Hs IH Hall]; cbn; [constructor|].
  destruct (p a); [|exact IH]. constructor; [exact IH|].
  rewrite Forall_forall in *. intros x Hx. apply Hall.
  now apply filter_In in Hx.
Qed.

Lemma StronglySorted_firstn {A : Type} (R : A -> A -> Prop) (n : nat)
  (l : list A) :
  StronglySorted R l -> StronglySorted R (firstn n l).
Proof.
  intros H. revert n. induction H as [|a l Hs IH Hall]; intros [|n]; cbn;
    try constructor; [apply IH|].
  rewrite Forall_forall in *. intros x Hx. apply Hall.
  now apply firstn_In in Hx.
Qed.

Lemma NoDup_map_firstn {A B : Type} (f : A -> B) (n : nat) (l : list A) :
  NoDup (map f l) -> NoDup (map f (firstn n l)).
Proof.
  revert n. induction l as [|a l IH]; intros [|n] H; cbn; try constructor.
  - inversion H as [|? ? Hn Hd]; subst. rewrite in_map_iff in *.
    intros (x & Hx & Hin). apply Hn. exists x. split; [exact Hx|].
    now apply firstn_In in Hin.
  - inversion H; subst. now apply IH.
Qed.

Lemma first_by_course_In (l : list recommendation) (r : recommendation) :
  In r (first_by_course l) -> In r l.
Proof.
  induction l as [|x l IH]; cbn; [auto|].
  intros [->|H]; [now left|]. right. apply IH. now apply filter_In in H.
Qed.

Lemma first_by_course_NoDup (l : list recommendation) :
  NoDup (map course (first_by_course l)).
Proof.
  induction l as [|x l IH]; cbn; constructor.
  - rewrite in_map_iff. intros (r & Hr & Hin). apply filter_In in Hin.
    destruct Hin as [_ Ho]. unfold other_course in Ho.
    rewrite Hr, N.eqb_refl in Ho. discriminate.
  - now apply filter_courses_NoDup.
Qed.

Lemma first_by_course_covers (l : list recommendation) (r : recommendation) :
  In r l -> exists r', In r' (first_by_course l) /\ course r' = course r.
Proof.
  induction l as [|x l IH]; cbn; [contradiction|].
  intros [->|H]; [eauto|].
  destruct (N.eqb_spec (course r) (course x)) as [E|E]; [eauto|].
  destruct (IH H) as (r' & Hin & Hc). exists r'. split; [|exact Hc].
  right. apply filter_In. split; [exact Hin|].
  unfold other_course. rewrite Hc. now apply negb_true_iff, N.eqb_neq.
Qed.

Lemma first_by_course_sorted (l : list recommendation) :
  StronglySorted not_below l -> StronglySorted not_below (first_by_course l).
Proof.
  induction 1 as [|x l Hs IH Hall]; cbn; constructor.
  - now apply StronglySorted_filter.
  - rewrite Forall_forall in *. intros r Hr. apply Hall.
    apply filter_In in Hr. now apply first_by_course_In.
Qed.

Lemma first_by_course_best (l : list recommendation) (r r' : recommendation) :
  StronglySorted not_below l ->
  In r (first_by_course l) -> In r' l -> course r' = course r ->
  (score r' <= score r)%Q.
Proof.
  induction 1 as [|x l Hs IH Hall]; cbn; [contradiction|].
  rewrite Forall_forall in Hall.
  intros [->|Hr] [->|Hr'] Hc.
  - apply Qle_refl.
  - now apply Hall.
  - apply filter_In in Hr. destruct Hr as [_ Ho]. unfold other_course in Ho.
    rewrite <- Hc, N.eqb_refl in Ho. discriminate.
  - apply filter_In in Hr. destruct Hr as [Hr _]. auto.
Qed.

Lemma by_score_perm (recs : list recommendation) :
  Permutation (by_score recs) recs.
Proof.
  unfold by_score. rewrite (SortFacts.sort_perm _), map_map. cbn.
  now rewrite map_id.
Qed.

Lemma by_score_sorted (recs : list recommendation) :
  StronglySorted not_below (by_score recs).
Proof.
  unfold by_score.
  apply (@sorted_payloads _ score); [|apply SortFacts.sort_sorted].
  apply Forall_forall. intros e He.
  apply (Permutation_in _ (SortFacts.sort_perm _)) in He.
  apply in_map_iff in He. destruct He as (r & <- & _). reflexivity.
Qed.

(** The recommendations returned name every course at most once, come
    from the list given, stand by descending score, and are at most
    [limit] when [limit] is positive. *)
Theorem unique_recommendations_distinct (limit : Z)
  (recommendations : list recommendation) :
  let result := unique_recommendations limit recommendations in
  NoDup (map course result) /\
  (forall r, In r result -> In r recommendations) /\
  StronglySorted not_below result /\
  (Z.of_nat (List.length result) <= Z.max 1 limit)%Z.
Proof.
  cbn zeta. rewrite unique_recommendations_spec. split; [|split; [|split]].
  - apply NoDup_map_firstn, first_by_course_NoDup.
  - intros r Hr. apply firstn_In, first_by_course_In in Hr.
    now apply (Permutation_in _ (by_score_perm recommendations)).
  - apply StronglySorted_firstn, first_by_course_sorted, by_score_sorted.
  - pose proof (firstn_le_length (Z.to_nat (Z.max 1 limit))
                  (first_by_course (by_score recommendations))). lia.
Qed.

(** A course that is returned is returned with its highest score: no
    entry of the list for the same course scores higher. *)
Theorem unique_recommendations_best (limit : Z)
  (recommendations : list recommendation) (r r' : recommendation)
  (Hr : In r (unique_recommendations limit recommendations))
  (Hr' : In r' recommendations)
  (Hc : course r' = course r) :
  (score r' <= score r)%Q.
Proof.
  rewrite unique_recommendations_spec in Hr. apply firstn_In in Hr.
  apply (@first_by_course_best _ r r' (by_score_sorted recommendations) Hr);
    [|exact Hc].
  now apply (Permutation_in _ (Permutation_sym (by_score_perm recommendations))).
Qed.

Lemma unique_recommendations_best_witness :
  (score (MoreExamples.rec 1 "skill gap" (1 # 2))
   <= score (MoreExamples.rec 1 "similar" (4 # 5)))%Q.
Proof.
  apply (@unique_recommendations_best 5 MoreExamples.recommendations
           (MoreExamples.rec 1 "similar" (4 # 5))
           (MoreExamples.rec 1 "skill gap" (1 # 2))).
  - vm_compute. auto.
  - left. reflexivity.
  - reflexivity.
Defined.

(** A [limit] of 0 or less does not give an empty answer: as soon as
    there is a recommendation, exactly one is returned. *)
Theorem unique_recommendations_nonpositive_limit (limit : Z)
  (recommendations : list recommendation)
  (Hl : (limit <= 0)%Z) (Hne : recommendations <> []) :
  List.length (unique_recommendations limit recommendations) = 1%nat.
Proof.
  rewrite unique_recommendations_spec. rewrite Z.max_l by lia.
  assert (Hs : by_score recommendations <> []).
  { intros H. pose proof (by_score_perm recommendations) as Hp.
    rewrite H in Hp. apply Permutation_nil in Hp. contradiction. }
  destruct (by_score recommendations) as [|x l]; [contradiction|].
  reflexivity.
Qed.

Lemma unique_recommendations_nonpositive_limit_witness :
  List.length (unique_recommendations 0 MoreExamples.recommendations) = 1%nat.
Proof.
  apply (@unique_recommendations_nonpositive_limit 0
           MoreExamples.recommendations).
  - lia.
  - discriminate.
Defined.

(** With a [limit] that is at least the number of entries, every course
    of the list is returned. *)
Theorem unique_recommendations_complete (limit : Z)
  (recommendations : list recommendation) (r : recommendation)
  (Hl : (Z.of_nat (List.length recommendations) <= limit)%Z)
  (Hr : In r recommendations) :
  exists r',
    In r' (unique_recommendations limit recommendations) /\
    course r' = course r.
Proof.
  rewrite unique_recommendations_spec.
  assert (Hlen : (List.length (first_by_course (by_score recommendations))
                  <= Z.to_nat (Z.max 1 limit))%nat).
  { assert (H : forall l, (List.length (first_by_course l) <= List.length l)%nat).
    { induction l as [|x l IH]; cbn; [lia|].
      pose proof (filter_length_le (other_course (course x))
                    (first_by_course l)). lia. }
    specialize (H (by_score recommendations)).
    rewrite (Permutation_length (by_score_perm recommendations)) in H. lia. }
  rewrite firstn_all2 by exact Hlen.
  apply first_by_course_covers.
  now apply (Permutation_in _ (Permutation_sym (by_score_perm recommendations))).
Qed.

Lemma unique_recommendations_complete_witness :
  exists r',
    In r' (unique_recommendations 3 MoreExamples.recommendations) /\
    course r' = 1%N.
Proof.
  apply (@unique_recommendations_complete 3 MoreExamples.recommendations
           (MoreExamples.rec 1 "skill gap" (1 # 2))).
  - simpl. lia.
  - left. reflexivity.
Defined.

End RecommendationFacts.

(* ================================================================== *)
(** * More on scoring *)

Module ScoringExtras.

Import AssessmentAttempt Scoring SubmitAnswers.









Lemma sum_values_set (d : Dict.t N) (k : string) (p : N) :
  sum_values (Dict.set d k (Dict.get_default d k 0 + p)%N)
  = (sum_values d + p)%N.
Proof.
  unfold sum_values, Dict.get_default.
  induction d as [|[k' v] d IH]; cbn; [lia|].
  destruct (String.eqb k' k); cbn; [lia|].
  unfold Dict.get_default in IH. rewrite IH. lia.
Qed.

Lemma step_sums (ans : Dict.t json) (a : acc) (q : Question.t) :
  sum_values (skill_total (step ans a q))
  = (sum_values (skill_total a) + Question.points q)%N /\
  (sum_values (skill_correct (step ans a q)) + earned_points a
   = sum_values (skill_correct a) + earned_points (step ans a q))%N.
Proof.
  unfold step, hit, miss.
  destruct (answered_correctly ans q);
    cbn [skill_total skill_correct earned_points];
    rewrite ?sum_values_set; lia.
Qed.

(** When the scoring loop ends, the totals kept per skill add up to
    [total_points] and the points kept as correct per skill add up to
    [earned_points]: every question counts in exactly one skill. *)
Theorem skill_buckets_partition (ans : Dict.t json) (qs : list Question.t)
  (a : acc) (Hl : for_each (score_question ans) qs acc0 = Val a) :
  sum_values (skill_total a) = total_points qs /\
  sum_values (skill_correct a) = earned_points a.
Proof.
  apply ScoringFacts.loop_Val_iff in Hl. destruct Hl as [_ ->].
  rewrite ScoringFacts.total_points_sum.
  assert (H : forall a0,
             sum_values (skill_total (fold_left (step ans) qs a0))
             = (sum_values (skill_total a0) + sum_points qs)%N /\
             (sum_values (skill_correct (fold_left (step ans) qs a0))
              + earned_points a0
              = sum_values (skill_correct a0)
                + earned_points (fold_left (step ans) qs a0))%N).
  { induction qs as [|q qs IH]; intros a0; cbn; [lia|].
    destruct (IH (step ans a0 q)) as [I1 I2].
    destruct (step_sums ans a0 q) as [S1 S2]. lia. }
  destruct (H acc0) as [H1 H2]. cbn in H1, H2. lia.
Qed.

Lemma skill_buckets_partition_witness :
  exists a,
    for_each (score_question (answers Examples.spec_example))
      (Assessment.questions (assessment Examples.spec_example)) acc0 = Val a /\
    sum_values (skill_total a)
    = total_points (Assessment.questions (assessment Examples.spec_example)) /\
    sum_values (skill_correct a) = earned_points a.
Proof.
  eexists. split; [reflexivity|].
  apply (@skill_buckets_partition (answers Examples.spec_example)
           (Assessment.questions (assessment Examples.spec_example))).
  reflexivity.
Defined.

Lemma round2_range (x : Q) : (0 <= x <= 100)%Q -> (0 <= round2 x <= 100)%Q.
Proof.
  intros [H0 H1]. unfold round2.
  destruct (PercentFacts.round_half_even_spec (x * 100)) as [Hn _].
  apply Qabs_Qle_condition in Hn. destruct Hn as [Hlo Hhi].
  assert (Hz : (0 <= round_half_even (x * 100) <= 10000)%Z).
  { split.
    - apply GamificationFacts.round_half_even_nonneg.
      apply Qmult_le_0_compat; [exact H0 | discriminate].
    - assert (H : (inject_Z (round_half_even (x * 100)) < inject_Z 10001)%Q).
      { change (inject_Z 10001) with 10001%Q. lra. }
      rewrite <- Zlt_Qlt in H. lia. }
  destruct Hz as [Z0 Z1]. rewrite Zle_Qle in Z0, Z1.
  change (inject_Z 0) with 0%Q in Z0. change (inject_Z 10000) with 10000%Q in Z1.
  split.
  - apply Qle_shift_div_l; [reflexivity | lra].
  - apply Qle_shift_div_r; [reflexivity | lra].
Qed.

(** On an attempt scored from the empty default, every percentage in
    [skill_scores] lies between 0 and 100. *)
Theorem skill_scores_range (self att : t) (s : Q) (k : string) (v : Q)
  (Hr : calculate_score self = Val (att, s))
  (He : skill_scores self = Dict.empty)
  (Hv : Dict.get (skill_scores att) k = Some v) :
  (0 <= v <= 100)%Q.
Proof.
  apply ScoringFacts.calculate_score_Val_iff in Hr.
  destruct Hr as (_ & -> & _).
  assert (Hk : In k (map skill_of (Assessment.questions (assessment self)))).
  { assert (Hin : In k (Dict.keys (skill_scores (scored self)))).
    { destruct (in_dec string_dec k (Dict.keys (skill_scores (scored self))))
        as [Hi|Hn]; [exact Hi|].
      apply DictFacts.get_None in Hn. congruence. }
    apply ScoringFacts.skill_scores_keys in Hin. rewrite He in Hin.
    destruct Hin as [[]|Hin]. exact Hin. }
  rewrite (ScoringFacts.skill_scores_get _ _ Hk) in Hv.
  injection Hv as <-. cbv zeta.
  destruct (N.ltb_spec 0 (skill_points (Assessment.questions (assessment self)) k))
    as [Hp|Hp]; [|split; discriminate].
  apply round2_range.
  pose proof (@PercentFacts.percentage_range
                (skill_earned (answers self)
                   (Assessment.questions (assessment self)) k)
                (skill_points (Assessment.questions (assessment self)) k)) as H.
  unfold percentage in H. apply N.ltb_lt in Hp. rewrite Hp in H. apply H.
  unfold skill_earned, skill_points.
  clear. induction (Assessment.questions (assessment self)) as [|q qs IH];
    cbn; [lia|].
  destruct (has_skill k q); cbn; [|exact IH].
  destruct (answered_correctly (answers self) q); cbn; lia.
Qed.

Lemma skill_scores_range_witness :
  (0 <= round2 50 <= 100)%Q.
Proof.
  apply (@skill_scores_range Examples.spec_example
           (scored Examples.spec_example)
           (score (scored Examples.spec_example)) "math" (round2 50));
    reflexivity.
Defined.

Lemma earned_mono (ans1 ans2 : Dict.t json) (qs : list Question.t) :
  (forall q, In q qs -> answered_correctly ans1 q = true ->
             answered_correctly ans2 q = true) ->
  (earned ans1 qs <= earned ans2 qs)%N.
Proof.
  unfold earned. induction qs as [|q qs IH]; intros H; cbn; [lia|].
  assert (IH' := IH (fun q' Hq => H q' (or_intror Hq))).
  specialize (H q (or_introl eq_refl)).
  destruct (answered_correctly ans1 q), (answered_correctly ans2 q); cbn;
    try lia; specialize (H eq_refl); discriminate.
Qed.

Lemma percentage_mono (c1 c2 t : N) :
  (c1 <= c2)%N -> (percentage c1 t <= percentage c2 t)%Q.
Proof.
  intros H. unfold percentage.
  destruct (N.ltb_spec 0 t) as [Ht|Ht]; [|apply Qle_refl].
  apply Qmult_le_compat_r; [|discriminate].
  unfold Qdiv. apply Qmult_le_compat_r; [now apply PercentFacts.QN_le|].
  apply Qinv_le_0_compat, PercentFacts.QN_nonneg.
Qed.

(** Answering more questions correctly never costs: if a second
    submission earns every question the first one earns, its score is at
    least as high, and it passes whenever the first one passes. *)
Theorem calculate_score_monotone (self other att1 att2 : t) (s1 s2 : Q)
  (Ha : assessment other = assessment self)
  (H1 : calculate_score self = Val (att1, s1))
  (H2 : calculate_score other = Val (att2, s2))
  (Hmore : forall q, In q (Assessment.questions (assessment self)) ->
             answered_correctly (answers self) q = true ->
             answered_correctly (answers other) q = true) :
  (s1 <= s2)%Q /\ (passed att1 = true -> passed att2 = true).
Proof.
  apply ScoringFacts.calculate_score_Val_iff in H1, H2.
  destruct H1 as (_ & -> & ->). destruct H2 as (_ & -> & ->).
  assert (Hs : (score (scored self) <= score (scored other))%Q).
  { rewrite !ScoringFacts.score_scored, Ha.
    now apply percentage_mono, earned_mono. }
  split; [exact Hs|].
  change (passed (scored self))
    with (Qle_bool (QN (Assessment.passing_score (assessment self)))
            (score (scored self))).
  change (passed (scored other))
    with (Qle_bool (QN (Assessment.passing_score (assessment other)))
            (score (scored other))).
  rewrite Ha, !Qle_bool_iff. intros Hp. now apply Qle_trans with (score (scored self)).
Qed.

Lemma calculate_score_monotone_witness :
  (score (scored Examples.spec_example)
   <= score (scored
               (Examples.attempt 70
                  (Assessment.questions (assessment Examples.spec_example))
                  [("1"%string, JInt 0); ("2"%string, JInt 1);
                   ("3"%string, JInt 0)])))%Q.
Proof.
  apply (@calculate_score_monotone Examples.spec_example
           (Examples.attempt 70
              (Assessment.questions (assessment Examples.spec_example))
              [("1"%string, JInt 0); ("2"%string, JInt 1);
               ("3"%string, JInt 0)])
           (scored Examples.spec_example)
           (scored
              (Examples.attempt 70
                 (Assessment.questions (assessment Examples.spec_example))
                 [("1"%string, JInt 0); ("2"%string, JInt 1);
                  ("3"%string, JInt 0)]))
           (score (scored Examples.spec_example))
           (score (scored
                     (Examples.attempt 70
                        (Assessment.questions (assessment Examples.spec_example))
                        [("1"%string, JInt 0); ("2"%string, JInt 1);
                         ("3"%string, JInt 0)])))).
  - reflexivity.
  - reflexivity.
  - reflexivity.
  - intros q Hq. cbn in Hq.
    repeat (destruct Hq as [<-|Hq]; [vm_compute; auto|]). contradiction.
Defined.

End ScoringExtras.

(* ================================================================== *)
(** * The feedback of an attempt *)

Module FeedbackFacts.

Import AssessmentAttempt Scoring SubmitAnswers AttemptResultSerializer.

(** The feedback reads the answer as the scoring loop does: a missing
    key and [null] are no answer. *)
Lemma question_feedback_submitted (ans : Dict.t json) (q : Question.t) :
  question_feedback ans q
  = (selected_correct <-
       match first_correct_index (Question.options q) 0, submitted ans q with
       | Some idx, Some a => i <- PyInt.int a ;; Val (i =? Z.of_nat idx)%Z
       | _, _ => Val false
       end ;;
     Val {| selected_answer := Dict.get ans (str (Question.id q));
            correct_answer := first_correct_index (Question.options q) 0;
            is_correct := selected_correct |}).
Proof.
  unfold question_feedback, submitted.
  destruct (first_correct_index (Question.options q) 0) as [idx|];
    destruct (Dict.get ans (str (Question.id q))) as [[]|]; reflexivity.
Qed.

Lemma first_correct_index_None (opts : list Question.option_t) (n : nat) :
  first_correct_index opts n = None ->
  forall o, In o opts -> Question.isCorrect o = false.
Proof.
  revert n. induction opts as [|x opts IH]; cbn; intros n H o; [contradiction|].
  destruct (Question.isCorrect x) eqn:E; [discriminate|].
  intros [<-|Ho]; [exact E | eauto].
Qed.

Lemma getitem_In {A : Type} (l : list A) (i : Z) (a : A) :
  getitem l i = Val a -> In a l.
Proof.
  unfold getitem. destruct (_ || _)%bool; [discriminate|].
  destruct (nth_error l _) as [b|] eqn:E; [|discriminate].
  intros [= <-]. now apply nth_error_In in E.
Qed.

Lemma filter_nil_all {A : Type} (f : A -> bool) (l : list A) :
  filter f l = [] -> forall a, In a l -> f a = false.
Proof.
  induction l as [|x l IH]; cbn; [contradiction|].
  destruct (f x) eqn:E; [discriminate|].
  intros H a [<-|Ha]; auto.
Qed.

Lemma unique_flagged (opts : list Question.option_t) (i j : nat)
  (o o' : Question.option_t) :
  (List.length (filter Question.isCorrect opts) <= 1)%nat ->
  nth_error opts i = Some o -> Question.isCorrect o = true ->
  nth_error opts j = Some o' -> Question.isCorrect o' = true ->
  i = j.
Proof.
  revert i j. induction opts as [|x opts IH]; intros i j Hlen Hi Ho Hj Ho'.
  - destruct i; discriminate.
  - cbn in Hlen. destruct (Question.isCorrect x) eqn:Ex.
    + assert (Hnil : filter Question.isCorrect opts = []).
      { destruct (filter Question.isCorrect opts); [reflexivity | cbn in Hlen; lia]. }
      pose proof (filter_nil_all _ _ Hnil) as Hall.
      destruct i as [|i], j as [|j]; cbn in Hi, Hj; [reflexivity | | |].
      * apply nth_error_In in Hj. rewrite (Hall _ Hj) in Ho'. discriminate.
      * apply nth_error_In in Hi. rewrite (Hall _ Hi) in Ho. discriminate.
      * apply nth_error_In in Hi. rewrite (Hall _ Hi) in Ho. discriminate.
    + destruct i as [|i]; [cbn in Hi; injection Hi as <-; congruence|].
      destruct j as [|j]; [cbn in Hj; injection Hj as <-; congruence|].
      cbn in Hi, Hj. f_equal. eapply IH; eauto.
Qed.

(** On a question with at most one option flagged correct, and an answer
    that is missing or an index that is not negative, the feedback and
    the score agree: [is_correct] holds exactly when the question earned
    its points. *)
Theorem feedback_agrees_with_score (ans : Dict.t json) (q : Question.t)
  (Hu : (flagged q <= 1)%nat)
  (Hv : forall v, submitted ans q = Some v ->
          exists i, PyInt.int v = Val i /\ (0 <= i)%Z) :
  exists fb,
    question_feedback ans q = Val fb /\
    is_correct fb = answered_correctly ans q.
Proof.
  rewrite question_feedback_submitted.
  unfold answered_correctly, selected_option.
  destruct (submitted ans q) as [v|].
  - destruct (Hv v eq_refl) as (i & Hi & Hpos). rewrite Hi. cbn [bind].
    destruct (first_correct_index (Question.options q) 0) as [idx|] eqn:Ef.
    + cbn [bind]. eexists. split; [reflexivity|]. cbn [is_correct].
      apply IndexFacts.first_correct_index_nth in Ef.
      destruct Ef as (_ & o & Hn & Hc). rewrite Nat.sub_0_r in Hn.
      destruct (getitem (Question.options q) i) as [o'|e] eqn:Eg.
      * assert (Hi' : nth_error (Question.options q) (Z.to_nat i) = Some o').
        { destruct (nth_error (Question.options q) (Z.to_nat i)) as [x|] eqn:En.
          - pose proof (IndexFacts.getitem_nonneg _ _ En) as Hg.
            rewrite Z2Nat.id in Hg by exact Hpos. congruence.
          - exfalso. apply nth_error_None in En.
            rewrite IndexFacts.getitem_out_of_range in Eg by lia.
            discriminate. }
        destruct (Question.isCorrect o') eqn:Ec.
        -- rewrite <- (unique_flagged _ _ _ Hu Hi' Ec Hn Hc).
           rewrite Z2Nat.id by exact Hpos. apply Z.eqb_refl.
        -- apply Z.eqb_neq. intros ->. rewrite Nat2Z.id in Hi'. congruence.
      * apply Z.eqb_neq. intros ->.
        rewrite (IndexFacts.getitem_nonneg _ _ Hn) in Eg. discriminate.
    + eexists. split; [reflexivity|]. cbn [is_correct].
      destruct (getitem (Question.options q) i) as [o'|e] eqn:Eg; [|reflexivity].
      symmetry. apply (first_correct_index_None _ _ Ef), (getitem_In _ _ Eg).
  - destruct (first_correct_index (Question.options q) 0);
      eexists; split; reflexivity.
Qed.

Lemma feedback_agrees_with_score_witness :
  exists fb,
    question_feedback (answers Examples.two_flagged)
      (Examples.question 1 3 None [Examples.opt "A" false; Examples.opt "B" true])
    = Val fb /\
    is_correct fb
    = answered_correctly (answers Examples.two_flagged)
        (Examples.question 1 3 None [Examples.opt "A" false; Examples.opt "B" true]).
Proof.
  apply (@feedback_agrees_with_score (answers Examples.two_flagged)
           (Examples.question 1 3 None
              [Examples.opt "A" false; Examples.opt "B" true])).
  - cbn. lia.
  - intros v Hv. cbn in Hv. injection Hv as <-. exists 1%Z. split; [reflexivity | lia].
Defined.

Lemma map_py_raises {A B : Type} (f : A -> py B) (l : list A) (a : A) (e : exn) :
  In a l -> f a = Raise e -> exists e', map_py f l = Raise e'.
Proof.
  induction l as [|x l IH]; cbn; [contradiction|].
  intros [->|Ha] He.
  - rewrite He. cbn. eauto.
  - destruct (f x); cbn; [|eauto].
    destruct (IH Ha He) as [e' ->]. cbn. eauto.
Qed.

(** An answer that does not parse as an integer is scored, as incorrect,
    by [calculate_score]; on a question with a flagged option the same
    answer makes the feedback of the attempt raise [ValueError], for the
    feedback calls [int] without a handler. *)
Theorem feedback_raises_where_score_tolerates (ans : Dict.t json)
  (qs : list Question.t) (q : Question.t) (v : json) (idx : nat)
  (Hq : In q qs)
  (Hf : first_correct_index (Question.options q) 0 = Some idx)
  (Hs : submitted ans q = Some v)
  (Hv : PyInt.int v = Raise ValueError) :
  question_feedback ans q = Raise ValueError /\
  (exists e, get_questions_feedback ans qs = Raise e) /\
  counts_as_incorrect ans q.
Proof.
  assert (H : question_feedback ans q = Raise ValueError).
  { rewrite question_feedback_submitted, Hf, Hs, Hv. reflexivity. }
  split; [exact H|]. split.
  - unfold get_questions_feedback. eapply map_py_raises; eauto.
  - assert (Ha : anomalous ans q) by (right; exists v; auto).
    destruct (anomalous_not_correct Ha) as [H1 H2].
    now apply miss_counts_as_incorrect.
Qed.

Lemma feedback_raises_where_score_tolerates_witness :
  question_feedback (answers Examples.anomalies)
    (Examples.question 2 1 None [Examples.opt "A" true; Examples.opt "B" false])
  = Raise ValueError.
Proof.
  apply (@feedback_raises_where_score_tolerates (answers Examples.anomalies)
           (Assessment.questions (assessment Examples.anomalies))
           (Examples.question 2 1 None
              [Examples.opt "A" true; Examples.opt "B" false])
           (JStr "first") 0).
  - cbn. auto.
  - reflexivity.
  - reflexivity.
  - reflexivity.
Defined.

Lemma first_correct_spec (opts : list Question.option_t) (n : nat) :
  match first_correct_index opts n with
  | Some idx =>
      (n <= idx)%nat /\
      exists o,
        nth_error opts (idx - n) = Some o /\ Question.isCorrect o = true /\
        Question.first_correct opts = Some o /\
        forall j o', (j < idx - n)%nat -> nth_error opts j = Some o' ->
                     Question.isCorrect o' = false
  | None =>
      Question.first_correct opts = None /\
      filter Question.isCorrect opts = []
  end.
Proof.
  revert n. induction opts as [|x opts IH]; intros n; cbn; [auto|].
  destruct (Question.isCorrect x) eqn:Ex.
  - split; [lia|]. exists x. rewrite Nat.sub_diag. repeat split; auto.
    intros j o' Hj. lia.
  - specialize (IH (S n)).
    destruct (first_correct_index opts (S n)) as [idx|]; [|exact IH].
    destruct IH as (Hle & o & Hn & Hc & Hfc & Hb). split; [lia|].
    exists o. replace (idx - n)%nat with (S (idx - S n)) by lia.
    repeat split; auto.
    intros [|j] o' Hj Ho'; cbn in Ho'.
    + injection Ho' as <-. exact Ex.
    + apply (Hb j); [lia | exact Ho'].
Qed.

(** [get_correct_answer] returns the text of the option at the index the
    feedback reports as [correct_answer]: the first flagged option, every
    option before it being unflagged; both are [None] exactly when no
    option is flagged. *)
Theorem get_correct_answer_first_flagged (q : Question.t) :
  match first_correct_index (Question.options q) 0 with
  | Some idx =>
      exists o,
        nth_error (Question.options q) idx = Some o /\
        Question.isCorrect o = true /\
        Question.get_correct_answer q = Some (Question.text o) /\
        forall j o', (j < idx)%nat ->
          nth_error (Question.options q) j = Some o' ->
          Question.isCorrect o' = false
  | None => Question.get_correct_answer q = None /\ flagged q = 0%nat
  end.
Proof.
  pose proof (first_correct_spec (Question.options q) 0) as H.
  unfold Question.get_correct_answer, flagged.
  destruct (first_correct_index (Question.options q) 0) as [idx|].
  - destruct H as (_ & o & Hn & Hc & Hf & Hb). rewrite Nat.sub_0_r in *.
    exists o. rewrite Hf. auto.
  - destruct H as [-> ->]. auto.
Qed.

End FeedbackFacts.

(* ================================================================== *)
(** * More on skill gaps *)

Module GapExtras.

Import AssessmentViewSet Gaps.

Lemma sum_Q_bounds (xs : list Q) (a : Q) :
  Forall (fun x => (0 <= x <= 100)%Q) xs ->
  (a <= fold_left Qplus xs a)%Q /\
  (fold_left Qplus xs a <= a + 100 * inject_Z (Z.of_nat (List.length xs)))%Q.
Proof.
  intros H. revert a. induction H as [|x xs [Hx0 Hx1] _ IH]; intros a.
  - cbn. split; [apply Qle_refl|]. rewrite Qmult_0_r, Qplus_0_r. apply Qle_refl.
  - cbn [fold_left List.length]. destruct (IH (a + x)%Q) as [I0 I1].
    rewrite Nat2Z.inj_succ, <- Z.add_1_r, inject_Z_plus.
    change (inject_Z 1) with 1%Q. split; lra.
Qed.

Lemma mean_value_range (xs : list Q) :
  xs <> [] -> Forall (fun x => (0 <= x <= 100)%Q) xs ->
  (0 <= mean_value xs <= 100)%Q.
Proof.
  intros Hne H. unfold mean_value, sum_Q.
  destruct (sum_Q_bounds 0 H) as [H0 H1].
  assert (Hn : (0 < inject_Z (Z.of_nat (List.length xs)))%Q).
  { change 0%Q with (inject_Z 0). rewrite <- Zlt_Qlt.
    destruct xs; [contradiction | cbn; lia]. }
  split.
  - apply Qle_shift_div_l; [exact Hn | lra].
  - apply Qle_shift_div_r; [exact Hn | lra].
Qed.

Lemma observed_reported (attempts : list AssessmentAttempt.t) (k : string) :
  In k (observed_skills attempts) ->
  exists att sc,
    In att attempts /\
    In (k, sc) (Dict.items (AssessmentAttempt.skill_scores att)).
Proof.
  unfold observed_skills, reported. rewrite GapFacts.first_seen_In, in_map_iff.
  intros ([k' sc] & Hk & Hin). cbn in Hk. subst k'.
  apply in_flat_map in Hin. destruct Hin as (att & Ha & Hi). eauto.
Qed.

(** What [submit] stores in [top_skill_gaps] names no skill twice and
    only skills that some attempt reports; when every reported score
    lies between 0 and 100, so does every gap percentage. *)
Theorem top_skill_gaps_entries (attempts : list AssessmentAttempt.t)
  (result : list (string * Q))
  (Hr : top_skill_gaps attempts = Val result) :
  NoDup (map fst result) /\
  (forall k g, In (k, g) result ->
     exists att sc,
       In att attempts /\
       In (k, sc) (Dict.items (AssessmentAttempt.skill_scores att))) /\
  ((forall att k sc,
      In att attempts ->
      In (k, sc) (Dict.items (AssessmentAttempt.skill_scores att)) ->
      (0 <= sc <= 100)%Q) ->
   forall k g, In (k, g) result -> (0 <= g <= 100)%Q).
Proof.
  rewrite top_skill_gaps_ranking in Hr. injection Hr as <-.
  pose proof (ranking_perm attempts) as Hp. cbv zeta in *.
  set (ranking := map snd (PySorted.sort_reverse _)) in *.
  assert (Hin : forall k, In k (firstn 5 ranking) -> In k (observed_skills attempts)).
  { intros k Hk. apply firstn_In in Hk. now apply (Permutation_in _ Hp). }
  split; [|split].
  - rewrite map_map. change (NoDup (map (fun k : string => k) (firstn 5 ranking))).
    apply RecommendationFacts.NoDup_map_firstn. rewrite map_id.
    apply (Permutation_NoDup (Permutation_sym Hp)), GapFacts.first_seen_NoDup.
  - intros k g Hkg. apply in_map_iff in Hkg.
    destruct Hkg as (k' & [= <- <-] & Hk). now apply observed_reported, Hin.
  - intros Hall k g Hkg. apply in_map_iff in Hkg.
    destruct Hkg as (k' & [= <- <-] & Hk).
    apply ScoringExtras.round2_range, mean_value_range.
    + now apply GapFacts.gaps_nonempty, Hin.
    + unfold gaps, gaps_in, reported. apply Forall_forall. intros x Hx.
      apply in_map_iff in Hx. destruct Hx as ([k2 sc] & <- & Hf).
      apply filter_In in Hf. destruct Hf as [Hf _].
      apply in_flat_map in Hf. destruct Hf as (att & Ha & Hi).
      pose proof (Hall att k2 sc Ha Hi) as [H0 H1]. cbn. split; lra.
Qed.

Lemma top_skill_gaps_entries_witness :
  NoDup (map fst [("B"%string, round2 70); ("A"%string, round2 20)]).
Proof.
  apply (@top_skill_gaps_entries Examples.two_attempts
           [("B"%string, round2 70); ("A"%string, round2 20)]).
  reflexivity.
Defined.

End GapExtras.
